(** * update_repo.py: regeneration of a flat Debian-style repository index

    A shallow embedding of [src/update_repo.py] and the properties of its
    four functions ([extract_control_fields], [format_entry],
    [build_packages], [update_release]) and of [main].

    Python text ([str]) is a sequence of Unicode code points, binary data
    ([bytes]) a sequence of octets.  The interpreter's string methods the
    script calls ([splitlines], [strip], [split], [join], [startswith],
    [isspace]) are written out below after their CPython behaviour; the
    external tools and codecs ([ar], [tarfile], [hashlib.md5], [bz2], UTF-8)
    are taken as an interface, see [Platform]. *)

From Stdlib Require Import NArith ZArith String Ascii Decimal.
From stdpp Require Import base option list sorting gmap.

Local Open Scope N_scope.

(** ** Text *)

Definition char : Type := N.
Definition str : Type := list char.
Definition bytes : Type := list Byte.byte.

(** A string literal of the script, as code points. *)
Definition lit (s : string) : str := N_of_ascii <$> list_ascii_of_string s.
Arguments lit : simpl never.

Definition NL : char := 10.
Definition CR : char := 13.
Definition COLON : char := 58.
Definition SLASH : char := 47.
Definition DOT : char := 46.

(** [c.isspace()] for one character: the code points CPython's
    [_PyUnicode_IsWhitespace] accepts. *)
Definition isspace (c : char) : bool :=
  ((9 <=? c) && (c <=? 13)) || ((28 <=? c) && (c <=? 32))
  || (c =? 133) || (c =? 160) || (c =? 5760)
  || ((8192 <=? c) && (c <=? 8202))
  || (c =? 8232) || (c =? 8233) || (c =? 8239) || (c =? 8287) || (c =? 12288).

(** The line boundaries of [str.splitlines]: \n \v \f \r, FS GS RS, NEL,
    LINE SEPARATOR and PARAGRAPH SEPARATOR. *)
Definition is_linebreak (c : char) : bool :=
  ((10 <=? c) && (c <=? 13)) || ((28 <=? c) && (c <=? 30))
  || (c =? 133) || (c =? 8232) || (c =? 8233).

(** [s.splitlines()]: [cur] holds, reversed, the characters of the line
    being scanned.  A \r\n pair is one boundary; a final boundary opens no
    further line, and the empty text has no line. *)
Fixpoint splitlines_from (cur : str) (s : str) : list str :=
  match s with
  | [] => match cur with [] => [] | _ => [reverse cur] end
  | c :: rest =>
      if is_linebreak c then
        reverse cur ::
          (if c =? CR then
             match rest with
             | d :: rest' => if d =? NL then splitlines_from [] rest'
                             else splitlines_from [] rest
             | [] => splitlines_from [] rest
             end
           else splitlines_from [] rest)
      else splitlines_from (c :: cur) rest
  end.

Definition splitlines (s : str) : list str := splitlines_from [] s.

(** [s.strip()] *)
Fixpoint lstrip (s : str) : str :=
  match s with
  | c :: rest => if isspace c then lstrip rest else s
  | [] => []
  end.

Definition rstrip (s : str) : str := reverse (lstrip (reverse s)).
Definition strip (s : str) : str := rstrip (lstrip s).

(** [c in s] for a one-character needle. *)
Definition contains (c : char) (s : str) : bool := existsb (N.eqb c) s.

(** [s.split(sep, 1)] for a one-character [sep] that occurs in [s]: the
    text before the first occurrence and the text after it.  (Without an
    occurrence Python returns the one-element list [[s]]; the script only
    unpacks the result after testing [sep in s].) *)
Fixpoint split_once (sep : char) (s : str) : str * str :=
  match s with
  | [] => ([], [])
  | c :: rest =>
      if c =? sep then ([], rest)
      else let '(a, b) := split_once sep rest in (c :: a, b)
  end.

(** [s.split(sep)] for a one-character [sep]: never empty. *)
Fixpoint split_on (sep : char) (s : str) : list str :=
  match s with
  | [] => [[]]
  | c :: rest =>
      if c =? sep then [] :: split_on sep rest
      else match split_on sep rest with
           | h :: t => (c :: h) :: t
           | [] => [[c]]
           end
  end.

(** [sep.join(parts)] *)
Fixpoint join (sep : str) (parts : list str) : str :=
  match parts with
  | [] => []
  | [p] => p
  | p :: ps => p ++ sep ++ join sep ps
  end.

(** [s.startswith(p)] *)
Fixpoint startswith (p s : str) : bool :=
  match p, s with
  | [], _ => true
  | a :: p', b :: s' => (a =? b) && startswith p' s'
  | _ :: _, [] => false
  end.

(** [str(n)] for an [int]. *)
Fixpoint digits (d : Decimal.uint) : str :=
  match d with
  | Nil => []
  | D0 d => 48 :: digits d | D1 d => 49 :: digits d | D2 d => 50 :: digits d
  | D3 d => 51 :: digits d | D4 d => 52 :: digits d | D5 d => 53 :: digits d
  | D6 d => 54 :: digits d | D7 d => 55 :: digits d | D8 d => 56 :: digits d
  | D9 d => 57 :: digits d
  end.

Definition str_of_int (z : Z) : str :=
  match Z.to_int z with
  | Decimal.Pos d => digits d
  | Decimal.Neg d => 45 :: digits d
  end.

(** ** [extract_control_fields], lines 29-42: the field parser *)

(** The loop's two variables.  [last] is a Python list of two strings that
    the loop updates in place; what [entries] receives is [tuple(last)], a
    new immutable pair built when the field line is read. *)
Record parse_state : Type := ParseState {
  ps_entries : list (str * str);
  ps_last : option (str * str)
}.

Definition parse_init : parse_state := ParseState [] None.

(** One iteration of [for raw_line in control_text.splitlines()]. *)
Definition parse_line (st : parse_state) (raw_line : str) : parse_state :=
  match raw_line with
  | [] => st                                                 (* continue *)
  | c :: _ =>
      match isspace c, ps_last st with
      | true, Some (k, v) =>
          (* last[1] += "\n" + raw_line: the list cell is rebound, the
             tuple already appended to entries is another object *)
          ParseState (ps_entries st) (Some (k, v ++ NL :: raw_line))
      | _, _ =>
          if negb (contains COLON raw_line) then st          (* continue *)
          else
            let '(key, val) := split_once COLON raw_line in
            let last := (strip key, strip val) in
            ParseState (ps_entries st ++ [last]) (Some last)
      end
  end.

Definition parse_lines (st : parse_state) (lines : list str) : parse_state :=
  fold_left parse_line lines st.

Definition parse_control (control_text : str) : list (str * str) :=
  ps_entries (parse_lines parse_init (splitlines control_text)).

(** ** [format_entry] *)

Definition reserved_keys : list str :=
  [lit "Filename"; lit "Size"; lit "MD5sum"].

(** One iteration of [for key, val in filtered]. *)
Definition format_field (lines : list str) (kv : str * str) : list str :=
  let '(key, val) := kv in
  if contains NL val then
    match split_on NL val with
    | first :: rest => (lines ++ [key ++ lit ": " ++ first]) ++ rest
    | [] => lines
    end
  else lines ++ [key ++ lit ": " ++ val].

Definition filtered_fields (entries : list (str * str))
    (filename : str) (size : Z) (md5hex : str) : list (str * str) :=
  filter (λ kv, kv.1 ∉ reserved_keys) entries
    ++ [(lit "Filename", filename); (lit "Size", str_of_int size);
        (lit "MD5sum", md5hex)].

Definition format_entry (entries : list (str * str))
    (filename : str) (size : Z) (md5hex : str) : str :=
  let lines := fold_left format_field
                 (filtered_fields entries filename size md5hex) [] in
  join [NL] lines ++ [NL; NL].

(** ** Exceptions, the file system and the external tools *)

Inductive exn : Type :=
  | RuntimeError (msg : str)
  | SystemExit (msg : str)
  | CalledProcessError      (* subprocess.check_output: ar exited non-zero *)
  | TarError                (* tarfile.open / getmembers failed *)
  | OSError                 (* a path could not be read or written *)
  | UnicodeError            (* strict UTF-8 encoding or decoding failed *)
  | ValueError.             (* list.index found nothing *)

Inductive result (A : Type) : Type :=
  | Ok (x : A)
  | Raise (e : exn).
Arguments Ok {A} x.
Arguments Raise {A} e.

(** An entry of the [debs] directory: a regular file with its bytes, or
    anything else (a subdirectory, a dangling link...). *)
Inductive node : Type :=
  | File (data : bytes)
  | Other.

(** What the script touches: the [debs] directory under the root (absent
    when [root / "debs"] is not a directory), the regular files directly
    under the root, by name, and the log of the [debs] entries whose
    content was accessed, oldest first. *)
Record world : Type := World {
  debs : option (gmap str node);
  files : gmap str bytes;
  opened : list str
}.

Inductive tar_mode : Type := Rgz | Rxz | Rbz2 | Rauto.

(** A [TarInfo] with the data [extractfile] reads for it. *)
Record tar_member : Type := TarMember {
  tm_name : str;
  tm_isfile : bool;
  tm_data : bytes
}.

(** The tools and codecs the script calls but does not define.  [None]
    stands for the failure of the call. *)
Record Platform : Type := {
  (* stdout of [ar t <deb>], decoded (text=True) *)
  ar_t : bytes → option str;
  (* stdout of [ar p <deb> <member>] *)
  ar_p : bytes → str → option bytes;
  (* tarfile.open(fileobj=BytesIO(blob), mode=...).getmembers() *)
  tar_getmembers : tar_mode → bytes → option (list tar_member);
  (* blob.decode("utf-8", errors="replace") *)
  utf8_decode_replace : bytes → str;
  (* text.encode("utf-8") and blob.decode("utf-8"), both strict *)
  utf8_encode : str → option bytes;
  utf8_decode : bytes → option str;
  (* hashlib.md5(blob).hexdigest() *)
  md5_hexdigest : bytes → str;
  (* bz2.compress(blob) *)
  bz2_compress : bytes → bytes
}.

(** State and exceptions. *)
Definition IO (A : Type) : Type := world → world * result A.

#[global] Instance IO_ret : MRet IO := λ A x w, (w, Ok x).
#[global] Instance IO_bind : MBind IO := λ A B f m w,
  match m w with
  | (w', Ok x) => f x w'
  | (w', Raise e) => (w', Raise e)
  end.

Definition raise {A : Type} (e : exn) : IO A := λ w, (w, Raise e).

Definition or_raise {A : Type} (e : exn) (o : option A) : IO A :=
  match o with Some x => mret x | None => raise e end.

(** Records that the content of [debs / name] is accessed. *)
Definition touch (name : str) : IO unit :=
  λ w, (World (debs w) (files w) (opened w ++ [name]), Ok tt).

Definition set_file (name : str) (data : bytes) : IO unit :=
  λ w, (World (debs w) (<[name := data]> (files w)) (opened w), Ok tt).

Definition get_file (name : str) : IO (option bytes) :=
  λ w, (w, Ok (files w !! name)).

Section Script.
Context (P : Platform).

(** ** [extract_control_fields], lines 10-27 *)

Definition tar_mode_of (control_member : str) : tar_mode :=
  if decide (control_member = lit "control.tar.gz") then Rgz
  else if decide (control_member = lit "control.tar.xz") then Rxz
  else if decide (control_member = lit "control.tar.bz2") then Rbz2
  else Rauto.

(** [name.split("/")[-1]] *)
Definition basename (name : str) : str := default [] (last (split_on SLASH name)).

Definition is_control (m : tar_member) : bool :=
  tm_isfile m && bool_decide (basename (tm_name m) = lit "control").

(** [subprocess.check_output(["ar", ...])] on a [debs] entry. *)
Definition run_ar {A : Type} (deb_name : str) (deb : node)
    (tool : bytes → option A) : IO A :=
  _ ← touch deb_name;
  match deb with
  | File data => or_raise CalledProcessError (tool data)
  | Other => raise CalledProcessError
  end.

Definition extract_control_fields (deb_name : str) (deb : node)
    : IO (list (str * str)) :=
  out ← run_ar deb_name deb (ar_t P);
  let listing := splitlines out in
  let control_member := List.find (startswith (lit "control.tar.")) listing in
  match control_member with
  | Some ((_ :: _) as control_member) =>
      control_blob ← run_ar deb_name deb (λ data, ar_p P data control_member);
      let mode := tar_mode_of control_member in
      members ← or_raise TarError (tar_getmembers P mode control_blob);
      match List.find is_control members with
      | None =>
          raise (RuntimeError (lit "control file not found inside " ++ deb_name))
      | Some member =>
          let control_text := utf8_decode_replace P (tm_data member) in
          mret (parse_control control_text)
      end
  | _ => raise (RuntimeError (lit "No control.tar.* found in " ++ deb_name))
  end.

(** ** [build_packages] *)

(** [Path.suffix] of a directory entry (pathlib up to Python 3.12): the
    name from its last dot on, unless that dot is the first or the last
    character. *)
Fixpoint rfind (c : char) (s : str) : option nat :=
  match s with
  | [] => None
  | d :: rest =>
      match rfind c rest with
      | Some i => Some (S i)
      | None => if d =? c then Some 0%nat else None
      end
  end.

Definition suffix (name : str) : str :=
  match rfind DOT name with
  | Some i =>
      if bool_decide (0 < i ∧ i < length name - 1)%nat then drop i name else []
  | None => []
  end.

(** Order of [str]: by code points, a proper prefix first.  Paths of one
    directory compare as their names do. *)
Fixpoint str_leb (a b : str) : bool :=
  match a, b with
  | [], _ => true
  | _ :: _, [] => false
  | x :: a', y :: b' =>
      if x <? y then true else if y <? x then false else str_leb a' b'
  end.

Definition path_le (p q : str * node) : Prop := str_leb p.1 q.1 = true.

#[global] Instance path_le_dec : RelDecision path_le.
Proof. intros p q. unfold path_le. apply _. Defined.

Definition is_deb (p : str * node) : Prop := suffix p.1 = lit ".deb".

#[global] Instance is_deb_dec p : Decision (is_deb p).
Proof. unfold is_deb. apply _. Defined.

(** [sorted(p for p in deb_dir.iterdir() if p.suffix == ".deb")]: each
    path is kept with the entry it names.  The names of a directory are
    distinct, so the sorted list is the same whatever order [iterdir]
    yields and whatever algorithm sorts. *)
Definition deb_paths (deb_dir : gmap str node) : list (str * node) :=
  merge_sort path_le (filter is_deb (map_to_list deb_dir)).

(** [deb.read_bytes()] *)
Definition read_bytes (deb_name : str) (deb : node) : IO bytes :=
  _ ← touch deb_name;
  match deb with
  | File data => mret data
  | Other => raise OSError
  end.

(** The body of the [for deb in ...] loop, run over the remaining paths. *)
Fixpoint build_loop (paths : list (str * node)) (entries : list str)
    : IO (list str) :=
  match paths with
  | [] => mret entries
  | (deb_name, deb) :: rest =>
      control ← extract_control_fields deb_name deb;
      data ← read_bytes deb_name deb;
      let md5hex := md5_hexdigest P data in
      let size := Z.of_nat (length data) in
      let rel := lit "debs/" ++ deb_name in
      build_loop rest (entries ++ [format_entry control rel size md5hex])
  end.

Definition build_packages (deb_dir : gmap str node) : IO str :=
  entries ← build_loop (deb_paths deb_dir) [];
  mret (concat entries).

(** ** [update_release] *)

(** [Path.read_text(encoding="utf-8")] reads with universal newlines:
    \r\n and \r arrive as \n. *)
Fixpoint universal_newlines (s : str) : str :=
  match s with
  | [] => []
  | c :: rest =>
      if c =? CR then
        NL :: match rest with
              | d :: rest' => if d =? NL then universal_newlines rest'
                              else universal_newlines rest
              | [] => []
              end
      else c :: universal_newlines rest
  end.

Definition read_text (name : str) : IO str :=
  o ← get_file name;
  data ← or_raise OSError o;
  text ← or_raise UnicodeError (utf8_decode P data);
  mret (universal_newlines text).

(** [Path.write_text(text, encoding="utf-8")]: the file is opened for
    writing, which empties it, before the text is encoded. *)
Definition write_text (name : str) (text : str) : IO unit :=
  match utf8_encode P text with
  | Some data => set_file name data
  | None => _ ← set_file name []; raise UnicodeError
  end.

(** The [for line in lines: ... else: ...] loop, lines 80-86. *)
Fixpoint scan_header (lines : list str) (header_lines : list str) : list str :=
  match lines with
  | [] => header_lines ++ [lit "MD5Sum:"]
  | line :: rest =>
      let header_lines := header_lines ++ [line] in
      if decide (strip line = lit "MD5Sum:") then header_lines
      else scan_header rest header_lines
  end.

(** [l.index(x)] *)
Definition index (x : str) (l : list str) : option nat :=
  fst <$> list_find (λ y, y = x) l.

Definition md5_block (new_md5_packages : str) (size_packages : Z)
    (new_md5_bz2 : str) (size_bz2 : Z) : str :=
  lit " " ++ new_md5_packages ++ lit " " ++ str_of_int size_packages
    ++ lit " Packages" ++ [NL]
  ++ lit " " ++ new_md5_bz2 ++ lit " " ++ str_of_int size_bz2
    ++ lit " Packages.bz2" ++ [NL].

(** Lines 79-92: the text written back, from the text read and the two
    digests and sizes. *)
Definition rewrite_release (release_text : str) (block : str) : result str :=
  let lines := splitlines release_text in
  let header_lines := scan_header lines [] in
  match index (lit "MD5Sum:") header_lines with
  | None => Raise ValueError
  | Some i =>
      let prefix := join [NL] (take i header_lines)
                      ++ [NL] ++ lit "MD5Sum:" ++ [NL] in
      Ok (prefix ++ block)
  end.

Definition update_release (release_path : str) (packages_content : str)
    (packages_bz2 : str) : IO unit :=
  release_text ← read_text release_path;
  encoded ← or_raise UnicodeError (utf8_encode P packages_content);
  let new_md5_packages := md5_hexdigest P encoded in
  o ← get_file packages_bz2;
  bz2_data ← or_raise OSError o;
  let new_md5_bz2 := md5_hexdigest P bz2_data in
  let size_packages := Z.of_nat (length encoded) in
  let size_bz2 := Z.of_nat (length bz2_data) in
  match rewrite_release release_text
          (md5_block new_md5_packages size_packages new_md5_bz2 size_bz2) with
  | Raise e => raise e
  | Ok new_text => write_text release_path new_text
  end.

(** ** [main]

    [root] is the world, so the two exit messages go without the path
    they end with; the three [print] calls at the end write to standard
    output only and are left out. *)
Definition main : IO unit := λ w,
  match debs w with
  | None => (w, Raise (SystemExit (lit "Missing debs directory")))
  | Some deb_dir =>
      (packages_content ← build_packages deb_dir;
       _ ← write_text (lit "Packages") packages_content;
       encoded ← or_raise UnicodeError (utf8_encode P packages_content);
       _ ← set_file (lit "Packages.bz2") (bz2_compress P encoded);
       o ← get_file (lit "Release");
       match o with
       | None => raise (SystemExit (lit "Release file not found"))
       | Some _ =>
           update_release (lit "Release") packages_content (lit "Packages.bz2")
       end) w
  end.

End Script.

(** ** A small platform to run the script on

    Archives are kept trivial: a package file is its control text, [ar]
    lists the three members of a .deb and fails on an empty file, and the
    control tarball holds a directory entry and the control file; a blob
    that starts with a NUL byte does not open as a tarball.  Text is
    ASCII. *)

Definition ascii_encode (text : str) : option bytes :=
  mapM (λ c, if c <? 128 then Byte.of_N c else None) text.

Definition ascii_decode (data : bytes) : option str :=
  mapM (λ b, let c := Byte.to_N b in if c <? 128 then Some c else None) data.

Definition sample_ar_t (data : bytes) : option str :=
  match data with
  | [] => None
  | _ => Some (lit "debian-binary" ++ [NL] ++ lit "control.tar.gz" ++ [NL]
               ++ lit "data.tar.gz" ++ [NL])
  end.

Definition sample_ar_p (data : bytes) (member : str) : option bytes :=
  if decide (member = lit "control.tar.gz") then Some data else None.

Definition sample_tar (mode : tar_mode) (blob : bytes) : option (list tar_member) :=
  match blob with
  | Byte.x00 :: _ => None
  | _ => Some [TarMember (lit "./") false []; TarMember (lit "./control") true blob]
  end.

(** A stand-in digest: the byte sum, in decimal. *)
Definition sample_digest (data : bytes) : str :=
  str_of_int (Z.of_N (foldr (λ b acc, Byte.to_N b + acc) 0 data)).

Definition sample_platform : Platform := {|
  ar_t := sample_ar_t;
  ar_p := sample_ar_p;
  tar_getmembers := sample_tar;
  utf8_decode_replace := fmap Byte.to_N;
  utf8_encode := ascii_encode;
  utf8_decode := ascii_decode;
  md5_hexdigest := sample_digest;
  bz2_compress := λ data, [Byte.x42; Byte.x5a; Byte.x68] ++ data
|}.

(** ASCII text as bytes. *)
Definition blob (s : string) : bytes :=
  (λ a, default Byte.x00 (Byte.of_N (N_of_ascii a))) <$> list_ascii_of_string s.

Definition sample_control : bytes :=
  blob "Package: hello" ++ [Byte.x0a] ++ blob "Version: 2.10" ++ [Byte.x0a].

Definition sample_debs : gmap str node :=
  {[ lit "hello.deb" := File sample_control;
     lit "README" := File (blob "notes");
     lit "apple.deb" := File (blob "Package: apple") ]}.

Definition sample_release : bytes :=
  blob "Origin: repo" ++ [Byte.x0a] ++ blob "MD5Sum:" ++ [Byte.x0a]
    ++ blob " 00 1 Packages" ++ [Byte.x0a] ++ blob "SHA256:" ++ [Byte.x0a]
    ++ blob " 11 1 Packages" ++ [Byte.x0a].

Definition sample_world : world :=
  World (Some sample_debs) {[ lit "Release" := sample_release ]} [].

(** The root once an empty index and its compressed form are in place. *)
Definition sample_indexed_world : world :=
  World (Some ∅)
    {[ lit "Release" := sample_release; lit "Packages" := [];
       lit "Packages.bz2" := bz2_compress sample_platform [] ]} [].

(** A manifest whose header line carries a trailing space. *)
Definition padded_release : bytes :=
  blob "Origin: repo" ++ [Byte.x0a] ++ blob "MD5Sum: " ++ [Byte.x0a]
    ++ blob " 00 1 Packages" ++ [Byte.x0a].

Definition padded_world : world :=
  World (Some ∅)
    {[ lit "Release" := padded_release; lit "Packages" := [];
       lit "Packages.bz2" := bz2_compress sample_platform [] ]} [].

(** * Vocabulary of the statements *)

(** ** Lines and fields *)

(** Text that holds no line boundary. *)
Definition single_line (s : str) : Prop := Forall (λ c, is_linebreak c = false) s.

#[global] Instance single_line_dec s : Decision (single_line s).
Proof. unfold single_line. apply _. Defined.

(** The lines of a text, each closed by a newline. *)
Definition unlines (lines : list str) : str :=
  concat ((λ l, l ++ [NL]) <$> lines).

(** A field as text, "key: value" closed by a newline, and a list of
    fields as text. *)
Definition field_text (kv : str * str) : str := kv.1 ++ lit ": " ++ kv.2 ++ [NL].

Definition render_fields (fields : list (str * str)) : str :=
  concat (field_text <$> fields).

(** The lines one field adds in the loop of [format_entry]. *)
Definition field_lines (kv : str * str) : list str :=
  match split_on NL kv.2 with
  | first :: rest => (kv.1 ++ lit ": " ++ first) :: rest
  | [] => []
  end.

(** Text that [strip] leaves alone and that holds no line boundary. *)
Definition plain (s : str) : Prop := strip s = s ∧ single_line s.

(** A field that reads back as it was written. *)
Definition plain_field (kv : str * str) : Prop :=
  plain kv.1 ∧ (COLON ∉ kv.1) ∧ plain kv.2.

#[global] Instance plain_dec s : Decision (plain s).
Proof. unfold plain. apply _. Defined.

#[global] Instance plain_field_dec kv : Decision (plain_field kv).
Proof. unfold plain_field. apply _. Defined.

Definition field_line (kv : str * str) : str := kv.1 ++ lit ": " ++ kv.2.

(** ** The round trip and the parser, as specified *)

(** C10 as the specification words it: keys that are non-empty, hold no
    colon and do not start with whitespace; values whose lines are all
    non-empty and whose lines after the first start with whitespace. *)
Definition claimed_key (k : str) : Prop :=
  k ≠ [] ∧ (COLON ∉ k) ∧ match k with c :: _ => isspace c = false | [] => True end.

Definition claimed_value (v : str) : Prop :=
  Forall (λ l, l ≠ []) (split_on NL v)
  ∧ Forall (λ l, match l with c :: _ => isspace c = true | [] => False end)
      (tail (split_on NL v)).

Definition claimed_roundtrip (entries : list (str * str))
    (filename : str) (size : Z) (md5hex : str) : Prop :=
  Forall (λ kv, claimed_key kv.1 ∧ claimed_value kv.2) entries →
  parse_control (format_entry entries filename size md5hex)
  = filter (λ kv, kv.1 ∉ reserved_keys) entries
    ++ [(lit "Filename", filename); (lit "Size", str_of_int size);
        (lit "MD5sum", md5hex)].

(** The parser as the specification words it: a line that starts with
    whitespace and follows a parsed field is appended, after a newline, to
    the value of the most recent field of the result. *)
Fixpoint extend_last (entries : list (str * str)) (raw_line : str)
    : list (str * str) :=
  match entries with
  | [] => []
  | [(k, v)] => [(k, v ++ NL :: raw_line)]
  | e :: rest => e :: extend_last rest raw_line
  end.

Definition spec_parse_line (entries : list (str * str)) (raw_line : str)
    : list (str * str) :=
  match raw_line with
  | [] => entries
  | c :: _ =>
      if isspace c && bool_decide (entries ≠ []) then extend_last entries raw_line
      else if contains COLON raw_line then
        let '(key, val) := split_once COLON raw_line in
        entries ++ [(strip key, strip val)]
      else entries
  end.

Definition spec_parse_control (control_text : str) : list (str * str) :=
  fold_left spec_parse_line (splitlines control_text) [].

(** What is left of a value: its text up to the first newline. *)
Definition first_line (kv : str * str) : str * str :=
  (kv.1, (split_once NL kv.2).1).

(** The loop invariant that ties the script's parser to the specified one. *)
Definition parse_related (st : parse_state) (entries : list (str * str)) : Prop :=
  ps_entries st = first_line <$> entries ∧ (ps_last st = None ↔ entries = []).

(** ** Packages and the manifest *)

(** The first member of [ar]'s listing that names a control tarball. *)
Definition control_member_of (out : str) : option str :=
  List.find (startswith (lit "control.tar.")) (splitlines out).

(** [name.endswith(sfx)] *)
Definition endswith (sfx name : str) : bool :=
  startswith (reverse sfx) (reverse name).

(** [w'] is [w] with only the access log extended, by names among [names]. *)
Definition log_extends (names : list str) (w w' : world) : Prop :=
  debs w' = debs w ∧ files w' = files w
  ∧ ∃ t, opened w' = opened w ++ t ∧ Forall (λ n, n ∈ names) t.

(** The lines of the manifest before the first one that strips to
    MD5Sum:, as the scan of lines 80-86 collects them. *)
Fixpoint before_header (lines : list str) : list str :=
  match lines with
  | [] => []
  | line :: rest =>
      if decide (strip line = lit "MD5Sum:") then [] else line :: before_header rest
  end.

(** The first line that strips to MD5Sum:, where the scan stops. *)
Definition header_of (lines : list str) : option str :=
  List.find (λ line, bool_decide (strip line = lit "MD5Sum:")) lines.

(** The manifest written back: the kept lines, the header, the checksums. *)
Definition rewritten (kept : list str) (block : str) : str :=
  join [NL] kept ++ [NL] ++ lit "MD5Sum:" ++ [NL] ++ block.

Section Outcomes.
Context (P : Platform).

(** Every way a call of [extract_control_fields] can end. *)
Inductive extract_outcome (deb_name : str)
    : node → result (list (str * str)) → Prop :=
  | eo_not_a_file :
      extract_outcome deb_name Other (Raise CalledProcessError)
  | eo_listing_fails data :
      ar_t P data = None →
      extract_outcome deb_name (File data) (Raise CalledProcessError)
  | eo_no_control_tar data out :
      ar_t P data = Some out →
      control_member_of out = None →
      extract_outcome deb_name (File data)
        (Raise (RuntimeError (lit "No control.tar.* found in " ++ deb_name)))
  | eo_extraction_fails data out control_member :
      ar_t P data = Some out →
      control_member_of out = Some control_member →
      ar_p P data control_member = None →
      extract_outcome deb_name (File data) (Raise CalledProcessError)
  | eo_tarball_unreadable data out control_member control_blob :
      ar_t P data = Some out →
      control_member_of out = Some control_member →
      ar_p P data control_member = Some control_blob →
      tar_getmembers P (tar_mode_of control_member) control_blob = None →
      extract_outcome deb_name (File data) (Raise TarError)
  | eo_no_control_file data out control_member control_blob members :
      ar_t P data = Some out →
      control_member_of out = Some control_member →
      ar_p P data control_member = Some control_blob →
      tar_getmembers P (tar_mode_of control_member) control_blob = Some members →
      List.find is_control members = None →
      extract_outcome deb_name (File data)
        (Raise (RuntimeError (lit "control file not found inside " ++ deb_name)))
  | eo_parsed data out control_member control_blob members member :
      ar_t P data = Some out →
      control_member_of out = Some control_member →
      ar_p P data control_member = Some control_blob →
      tar_getmembers P (tar_mode_of control_member) control_blob = Some members →
      List.find is_control members = Some member →
      extract_outcome deb_name (File data)
        (Ok (parse_control (utf8_decode_replace P (tm_data member)))).

(** [entry] is the text of the package [p]: its control fields, read from
    the file, followed by its path, size and digest. *)
Definition package_entry (p : str * node) (entry : str) : Prop :=
  ∃ data control,
    p.2 = File data
    ∧ (∀ w, (extract_control_fields P p.1 p.2 w).2 = Ok control)
    ∧ entry = format_entry control (lit "debs/" ++ p.1)
                (Z.of_nat (length data)) (md5_hexdigest P data).

End Outcomes.

(** ** The sample run

    The index of [sample_debs] and the world after it is built. *)
Definition sample_index : str :=
  lit "Package: apple" ++ [NL] ++ lit "Filename: debs/apple.deb" ++ [NL]
    ++ lit "Size: 14" ++ [NL] ++ lit "MD5sum: 1304" ++ [NL; NL]
  ++ lit "Package: hello" ++ [NL] ++ lit "Version: 2.10" ++ [NL]
    ++ lit "Filename: debs/hello.deb" ++ [NL]
    ++ lit "Size: 29" ++ [NL] ++ lit "MD5sum: 2351" ++ [NL; NL].

Definition sample_visited : world :=
  World (Some sample_debs) {[ lit "Release" := sample_release ]}
    [lit "apple.deb"; lit "apple.deb"; lit "apple.deb";
     lit "hello.deb"; lit "hello.deb"; lit "hello.deb"].

(** A directory whose second package is an empty file, which [ar] does
    not list, and a root without a manifest. *)
Definition sample_broken_debs : gmap str node :=
  {[ lit "apple.deb" := File (blob "Package: apple");
     lit "broken.deb" := File [];
     lit "zeta.deb" := File (blob "Package: zeta") ]}.

Definition sample_bare_world : world := World (Some sample_debs) ∅ [].

(** * Properties *)

(** Settles a decidable statement about concrete data by evaluation. *)
Ltac by_evaluation := apply (bool_decide_unpack _); vm_compute; exact I.

(** ** Lines *)

Lemma unlines_app l1 l2 : unlines (l1 ++ l2) = unlines l1 ++ unlines l2.
Proof. unfold unlines. by rewrite fmap_app, concat_app. Qed.

Lemma join_unlines lines :
  lines ≠ [] → join [NL] lines ++ [NL] = unlines lines.
Proof.
  induction lines as [|l [|l' ls] IH]; intros Hne; [done| |].
  - unfold unlines. simpl. by rewrite app_nil_r.
  - change (join [NL] (l :: l' :: ls)) with (l ++ [NL] ++ join [NL] (l' :: ls)).
    change (unlines (l :: l' :: ls)) with ((l ++ [NL]) ++ unlines (l' :: ls)).
    rewrite <- IH by done. by rewrite <- !app_assoc.
Qed.

Lemma split_on_nonempty sep s : split_on sep s ≠ [].
Proof. destruct s as [|c s]; simpl; [done|]. repeat case_match; done. Qed.

Lemma join_split_on s : join [NL] (split_on NL s) = s.
Proof.
  induction s as [|c s IH]; [done|]. simpl.
  destruct (N.eqb_spec c NL) as [->|Hc].
  - pose proof (split_on_nonempty NL s) as Hne.
    destruct (split_on NL s) as [|h t] eqn:E; [done|]. simpl in *.
    by rewrite IH.
  - destruct (split_on NL s) as [|h t] eqn:E.
    + by destruct (split_on_nonempty NL s).
    + destruct t; simpl in *; by rewrite <- IH.
Qed.

Lemma splitlines_from_line cur l rest :
  single_line l →
  splitlines_from cur (l ++ NL :: rest) = (reverse cur ++ l) :: splitlines rest.
Proof.
  intros Hl. revert cur. induction Hl as [|c l Hc _ IH]; intros cur.
  - simpl. by rewrite app_nil_r.
  - simpl. rewrite Hc, IH. by rewrite reverse_cons, <- app_assoc.
Qed.

Lemma splitlines_unlines lines :
  Forall single_line lines → splitlines (unlines lines) = lines.
Proof.
  induction 1 as [|l ls Hl _ IH]; [done|].
  change (unlines (l :: ls)) with ((l ++ [NL]) ++ unlines ls).
  unfold splitlines at 1. rewrite <- app_assoc. simpl.
  rewrite splitlines_from_line by done. by rewrite IH.
Qed.

Lemma splitlines_from_single_line cur s :
  single_line cur → Forall single_line (splitlines_from cur s).
Proof.
  remember (length s) as n eqn:Hn. revert cur s Hn.
  induction (lt_wf n) as [n _ IH]; intros cur s -> Hcur.
  assert (Hrev : single_line (reverse cur))
    by (unfold single_line; by rewrite Forall_reverse).
  destruct s as [|c rest]; simpl.
  - destruct cur; [constructor|]. by repeat constructor.
  - destruct (is_linebreak c) eqn:Hc.
    + constructor; [done|].
      destruct (c =? CR); [destruct rest as [|d rest']; [constructor|]|].
      * destruct (d =? NL);
          (eapply IH; [|reflexivity|constructor]; simpl; lia).
      * eapply IH; [|reflexivity|constructor]; simpl; lia.
    + eapply IH; [|reflexivity|by constructor]. simpl; lia.
Qed.

Lemma splitlines_single_line s : Forall single_line (splitlines s).
Proof. apply splitlines_from_single_line. constructor. Qed.

(** ** Stripping *)

Lemma lstrip_length s : (length (lstrip s) ≤ length s)%nat.
Proof. induction s as [|c s IH]; simpl; [lia|]. destruct (isspace c); simpl; lia. Qed.

Lemma rstrip_length s : (length (rstrip s) ≤ length s)%nat.
Proof.
  unfold rstrip. rewrite length_reverse.
  pose proof (lstrip_length (reverse s)) as H. by rewrite length_reverse in H.
Qed.

Lemma strip_fixed_head c s : strip (c :: s) = c :: s → isspace c = false.
Proof.
  intros H. destruct (isspace c) eqn:Hc; [|done].
  apply (f_equal length) in H. unfold strip in H. simpl in H. rewrite Hc in H.
  pose proof (rstrip_length (lstrip s)). pose proof (lstrip_length s).
  simpl in H. lia.
Qed.

Lemma strip_leading_space s : strip (32 :: s) = strip s.
Proof. reflexivity. Qed.

(** ** [format_entry] in closed form *)

Lemma contains_false c s : contains c s = false → split_on c s = [s].
Proof.
  unfold contains. induction s as [|d s IH]; [done|]. simpl.
  rewrite orb_false_iff, (N.eqb_sym c d). intros [-> H]. by rewrite IH.
Qed.

Lemma format_field_lines lines kv : format_field lines kv = lines ++ field_lines kv.
Proof.
  destruct kv as [k v]. unfold format_field, field_lines. simpl.
  destruct (contains NL v) eqn:E.
  - destruct (split_on NL v); [by rewrite app_nil_r|]. by rewrite <- app_assoc.
  - by rewrite (contains_false _ _ E).
Qed.

Lemma fold_format_field fields lines :
  fold_left format_field fields lines = lines ++ concat (field_lines <$> fields).
Proof.
  revert lines. induction fields as [|kv fields IH]; intros lines; simpl.
  - by rewrite app_nil_r.
  - by rewrite IH, format_field_lines, <- app_assoc.
Qed.

Lemma unlines_prefixed_split (p v : str) :
  unlines (match split_on NL v with
           | first :: rest => (p ++ first) :: rest
           | [] => []
           end) = p ++ v ++ [NL].
Proof.
  pose proof (join_split_on v) as Hj.
  pose proof (split_on_nonempty NL v) as Hne.
  destruct (split_on NL v) as [|first rest]; [done|].
  rewrite <- Hj, <- join_unlines by done.
  destruct rest; simpl; by rewrite <- ?app_assoc.
Qed.

Lemma unlines_field_lines kv : unlines (field_lines kv) = field_text kv.
Proof.
  destruct kv as [k v]. unfold field_lines, field_text. cbn [fst snd].
  pose proof (unlines_prefixed_split (k ++ lit ": ") v) as H.
  rewrite <- !app_assoc in H. rewrite <- H.
  destruct (split_on NL v); [done|]. by rewrite <- !app_assoc.
Qed.

Lemma unlines_concat_field_lines fields :
  unlines (concat (field_lines <$> fields)) = render_fields fields.
Proof.
  induction fields as [|kv fields IH]; [done|].
  unfold render_fields in *. rewrite !fmap_cons, !concat_cons.
  by rewrite unlines_app, IH, unlines_field_lines.
Qed.

Lemma field_lines_nonempty kv : field_lines kv ≠ [].
Proof.
  unfold field_lines. pose proof (split_on_nonempty NL kv.2).
  by destruct (split_on NL kv.2).
Qed.

Lemma format_entry_render entries filename size md5hex :
  format_entry entries filename size md5hex
  = render_fields (filtered_fields entries filename size md5hex) ++ [NL].
Proof.
  unfold format_entry. rewrite fold_format_field. simpl.
  rewrite <- unlines_concat_field_lines.
  change [NL; NL] with ([NL] ++ [NL]). rewrite app_assoc. f_equal.
  apply join_unlines. unfold filtered_fields. rewrite fmap_app, concat_app.
  simpl. intros H. apply app_eq_nil in H as [_ H].
  pose proof (field_lines_nonempty (lit "Filename", filename)).
  by destruct (field_lines (lit "Filename", filename)).
Qed.

(** The text of an entry, spelled out. *)
Lemma format_entry_text entries filename size md5hex :
  format_entry entries filename size md5hex
  = render_fields (filter (λ kv, kv.1 ∉ reserved_keys) entries)
    ++ lit "Filename: " ++ filename ++ [NL]
    ++ lit "Size: " ++ str_of_int size ++ [NL]
    ++ lit "MD5sum: " ++ md5hex ++ [NL; NL].
Proof.
  rewrite format_entry_render. unfold filtered_fields, render_fields.
  rewrite fmap_app, concat_app, <- app_assoc. f_equal.
  unfold field_text. cbn [fmap list_fmap concat fst snd].
  rewrite app_nil_r, <- !app_assoc. reflexivity.
Qed.

(** C9.  Whatever the control fields are, [format_entry] writes the fields
    whose key is none of Filename, Size, MD5sum, in their order, one
    "key: value" text each, and then exactly three more: Filename, Size
    and MD5sum, in that order, with the values given as arguments; a
    blank line closes the entry. *)
Theorem format_entry_trailing_fields entries filename size md5hex :
  let kept := filter (λ kv, kv.1 ∉ reserved_keys) entries in
  format_entry entries filename size md5hex
    = render_fields kept
      ++ lit "Filename: " ++ filename ++ [NL]
      ++ lit "Size: " ++ str_of_int size ++ [NL]
      ++ lit "MD5sum: " ++ md5hex ++ [NL; NL]
  ∧ Forall (λ kv, kv.1 ≠ lit "Filename" ∧ kv.1 ≠ lit "Size"
                  ∧ kv.1 ≠ lit "MD5sum") kept
  ∧ kept `sublist_of` entries
  ∧ (∀ kv, kv ∈ entries → kv.1 ∉ reserved_keys → kv ∈ kept).
Proof.
  intros kept. split_and!.
  - apply format_entry_text.
  - apply Forall_forall. intros kv Hkv.
    apply list_elem_of_filter in Hkv as [Hk _]. unfold reserved_keys in Hk.
    rewrite !not_elem_of_cons in Hk. tauto.
  - apply sublist_filter.
  - intros kv Hin Hk. apply list_elem_of_filter. done.
Qed.

(** ** The parser on the text [format_entry] writes *)

Lemma render_fields_unlines fields :
  render_fields fields = unlines (field_line <$> fields).
Proof.
  unfold render_fields, unlines. rewrite <- list_fmap_compose. f_equal.
  apply list_fmap_ext. intros _ [k v] _. unfold field_text, field_line. simpl.
  by rewrite <- !app_assoc.
Qed.

Lemma split_once_first sep k rest :
  sep ∉ k → split_once sep (k ++ sep :: rest) = (k, rest).
Proof.
  induction k as [|c k IH]; intros Hk; simpl.
  - by rewrite N.eqb_refl.
  - apply not_elem_of_cons in Hk as [Hc Hk].
    destruct (N.eqb_spec c sep); [congruence|]. by rewrite IH.
Qed.

Lemma contains_middle c a b : contains c (a ++ c :: b) = true.
Proof.
  unfold contains. rewrite existsb_app. simpl.
  rewrite N.eqb_refl. by rewrite orb_true_r.
Qed.

Lemma parse_line_field st k v :
  plain_field (k, v) →
  parse_line st (field_line (k, v))
  = ParseState (ps_entries st ++ [(k, v)]) (Some (k, v)).
Proof.
  intros ([Hk _] & Hcolon & [Hv _]). simpl in *.
  unfold field_line. change (lit ": ") with [COLON; 32]. cbn [fst snd].
  assert (Hbody : (if negb (contains COLON (k ++ [COLON; 32] ++ v)) then st
                   else let '(key, val) := split_once COLON (k ++ [COLON; 32] ++ v) in
                        let last := (strip key, strip val) in
                        ParseState (ps_entries st ++ [last]) (Some last))
                  = ParseState (ps_entries st ++ [(k, v)]) (Some (k, v))).
  { change (k ++ [COLON; 32] ++ v) with (k ++ COLON :: 32 :: v).
    rewrite contains_middle, split_once_first by done. simpl.
    by rewrite strip_leading_space, Hk, Hv. }
  destruct k as [|c k]; [exact Hbody|].
  unfold parse_line. cbn [app]. rewrite (strip_fixed_head _ _ Hk). exact Hbody.
Qed.

Lemma parse_lines_fields st fields :
  Forall plain_field fields →
  ps_entries (parse_lines st (field_line <$> fields)) = ps_entries st ++ fields.
Proof.
  intros H. revert st. induction H as [|[k v] fields Hkv _ IH]; intros st.
  - simpl. by rewrite app_nil_r.
  - unfold parse_lines in *. rewrite fmap_cons. cbn [fold_left].
    rewrite parse_line_field, IH by done. simpl. by rewrite <- app_assoc.
Qed.

Lemma single_line_app a b : single_line a → single_line b → single_line (a ++ b).
Proof. unfold single_line. apply Forall_app_2. Qed.

Lemma field_line_single kv : plain_field kv → single_line (field_line kv).
Proof.
  intros ([_ Hk] & _ & [_ Hv]). unfold field_line.
  repeat apply single_line_app; try done. by repeat constructor.
Qed.

Lemma lstrip_no_space s : Forall (λ c, isspace c = false) s → lstrip s = s.
Proof. destruct 1 as [|c s Hc _]; simpl; [done|]. by rewrite Hc. Qed.

Lemma strip_no_space s : Forall (λ c, isspace c = false) s → strip s = s.
Proof.
  intros H. unfold strip, rstrip. rewrite (lstrip_no_space s H).
  rewrite lstrip_no_space by (by apply Forall_reverse). apply reverse_involutive.
Qed.

Lemma digits_range d : Forall (λ c, 48 ≤ c ≤ 57) (digits d).
Proof. induction d; simpl; constructor; (lia || done). Qed.

Lemma str_of_int_range z : Forall (λ c, 45 ≤ c ≤ 57) (str_of_int z).
Proof.
  unfold str_of_int. destruct (Z.to_int z) as [d|d]; [|constructor; [lia|]];
    (eapply Forall_impl; [apply digits_range|]); simpl; intros; lia.
Qed.

Lemma ascii_range_visible c : 45 ≤ c ≤ 57 → isspace c = false ∧ is_linebreak c = false.
Proof.
  intros H. unfold isspace, is_linebreak.
  repeat match goal with
         | |- context [?a <=? ?b] => destruct (N.leb_spec a b); try lia
         | |- context [?a =? ?b] => destruct (N.eqb_spec a b); try lia
         end; done.
Qed.

Lemma str_of_int_plain z : plain (str_of_int z).
Proof.
  split; [apply strip_no_space|]; (eapply Forall_impl; [apply str_of_int_range|]);
    intros c Hc; by apply ascii_range_visible.
Qed.

Lemma filtered_fields_plain entries filename size md5hex :
  Forall plain_field entries → plain filename → plain md5hex →
  Forall plain_field (filtered_fields entries filename size md5hex).
Proof.
  intros He Hf Hm. unfold filtered_fields. apply Forall_app_2.
  - apply Forall_forall. intros kv Hkv%list_elem_of_filter.
    rewrite Forall_forall in He. apply He, Hkv.
  - assert (Hkey : ∀ k v, k ∈ reserved_keys → plain v → plain_field (k, v)).
    { intros k v Hk Hv. unfold reserved_keys in Hk.
      rewrite !elem_of_cons, elem_of_nil in Hk.
      destruct Hk as [->|[->|[->|[]]]];
        (split_and!; [by_evaluation..|done]). }
    repeat apply Forall_cons_2; [..|constructor]; apply Hkey;
      try apply str_of_int_plain; try done; unfold reserved_keys;
      rewrite !elem_of_cons; tauto.
Qed.

(** C10, as amended.  When every key and value of the field list, the
    file name and the digest are free of line boundaries and of leading
    and trailing whitespace, and no key holds a colon, parsing the text
    [format_entry] writes gives back the list without its Filename, Size
    and MD5sum fields, followed by the three fields of the arguments. *)
Theorem parse_format_roundtrip entries filename size md5hex :
  Forall plain_field entries → plain filename → plain md5hex →
  parse_control (format_entry entries filename size md5hex)
  = filter (λ kv, kv.1 ∉ reserved_keys) entries
    ++ [(lit "Filename", filename); (lit "Size", str_of_int size);
        (lit "MD5sum", md5hex)].
Proof.
  intros He Hf Hm.
  pose proof (filtered_fields_plain _ _ size _ He Hf Hm) as Hplain.
  fold (filtered_fields entries filename size md5hex).
  set (fields := filtered_fields entries filename size md5hex) in *.
  rewrite format_entry_render, render_fields_unlines.
  change [NL] with (unlines [[]]). rewrite <- unlines_app.
  unfold parse_control. rewrite splitlines_unlines.
  - unfold parse_lines. rewrite fold_left_app. simpl.
    apply (parse_lines_fields parse_init fields Hplain).
  - apply Forall_app_2; [|by repeat constructor].
    apply Forall_fmap. eapply Forall_impl; [exact Hplain|].
    intros kv. apply field_line_single.
Qed.

(** C10 fails as stated: the parser strips what it reads and cuts lines at
    every line boundary, not only at \n.  A value ending in a space, a key
    ending in a space, a value holding a carriage return and a file name
    ending in a space all satisfy the stated conditions and do not come
    back. *)
Lemma roundtrip_fails_on_padding :
  ¬ claimed_roundtrip [(lit "Version", lit "1.0 ")] (lit "debs/a.deb") 4 (lit "00")
  ∧ ¬ claimed_roundtrip [(lit "Version ", lit "1.0")] (lit "debs/a.deb") 4 (lit "00")
  ∧ ¬ claimed_roundtrip [(lit "Description", lit "a" ++ [CR] ++ lit "b")]
        (lit "debs/a.deb") 4 (lit "00")
  ∧ ¬ claimed_roundtrip [] (lit "debs/a.deb ") 4 (lit "00").
Proof.
  split_and!; intros H;
    (assert (Hgoal : False); [|exact Hgoal]);
    (lapply H; [vm_compute; discriminate|]);
    try (by constructor);
    (constructor; [|constructor]);
    (split; [split_and!; [discriminate|by_evaluation|reflexivity]|]);
    (split; vm_compute; repeat constructor; discriminate).
Qed.

(** The round trip on a control list that carries a stale Size. *)
Lemma parse_format_roundtrip_witness :
  parse_control
    (format_entry [(lit "Package", lit "hello"); (lit "Size", lit "1");
                   (lit "Version", lit "2.10-3")]
       (lit "debs/hello_2.10-3.deb") 56132 (lit "9e107d9d372bb6826bd81d3542a419d6"))
  = [(lit "Package", lit "hello"); (lit "Version", lit "2.10-3");
     (lit "Filename", lit "debs/hello_2.10-3.deb"); (lit "Size", lit "56132");
     (lit "MD5sum", lit "9e107d9d372bb6826bd81d3542a419d6")].
Proof.
  apply (parse_format_roundtrip
           [(lit "Package", lit "hello"); (lit "Size", lit "1");
            (lit "Version", lit "2.10-3")]
           (lit "debs/hello_2.10-3.deb") 56132
           (lit "9e107d9d372bb6826bd81d3542a419d6")); by_evaluation.
Defined.

(** ** The field parser and continuation lines *)

Lemma split_once_fst_app sep v rest :
  (split_once sep (v ++ sep :: rest)).1 = (split_once sep v).1.
Proof.
  induction v as [|c v IH]; simpl.
  - by rewrite N.eqb_refl.
  - destruct (c =? sep); [done|].
    destruct (split_once sep (v ++ sep :: rest)), (split_once sep v).
    simpl in *. by rewrite IH.
Qed.

Lemma split_once_fst_absent sep v : sep ∉ v → (split_once sep v).1 = v.
Proof.
  induction v as [|c v IH]; [done|]. intros [Hc Hv]%not_elem_of_cons. simpl.
  destruct (N.eqb_spec c sep); [congruence|].
  destruct (split_once sep v). simpl in *. by rewrite IH.
Qed.

Lemma split_once_snd_elem sep s c : c ∈ (split_once sep s).2 → c ∈ s.
Proof.
  induction s as [|d s IH]; simpl; [done|].
  destruct (d =? sep); simpl; [by right|].
  destruct (split_once sep s). simpl in *. intros H. right. by apply IH.
Qed.

Lemma lstrip_elem s c : c ∈ lstrip s → c ∈ s.
Proof.
  induction s as [|d s IH]; simpl; [done|].
  destruct (isspace d); [|done]. intros H. right. by apply IH.
Qed.

Lemma strip_elem s c : c ∈ strip s → c ∈ s.
Proof.
  unfold strip, rstrip. rewrite elem_of_reverse. intros H%lstrip_elem.
  rewrite elem_of_reverse in H. by apply lstrip_elem.
Qed.

Lemma first_line_extend_last entries raw_line :
  first_line <$> extend_last entries raw_line = first_line <$> entries.
Proof.
  induction entries as [|[k v] [|e rest] IH]; [done| |].
  - unfold first_line. simpl. by rewrite split_once_fst_app.
  - change (extend_last ((k, v) :: e :: rest) raw_line)
      with ((k, v) :: extend_last (e :: rest) raw_line).
    by rewrite !fmap_cons, IH.
Qed.

Lemma extend_last_nonempty entries raw_line :
  entries ≠ [] → extend_last entries raw_line ≠ [].
Proof. destruct entries as [|[k v] [|e rest]]; done. Qed.

Lemma parse_line_related st entries raw_line :
  single_line raw_line → parse_related st entries →
  parse_related (parse_line st raw_line) (spec_parse_line entries raw_line).
Proof.
  intros Hline [Hent Hlast]. destruct raw_line as [|c l]; [done|].
  assert (Hfield :
    parse_related
      (if negb (contains COLON (c :: l)) then st
       else let '(key, val) := split_once COLON (c :: l) in
            let last := (strip key, strip val) in
            ParseState (ps_entries st ++ [last]) (Some last))
      (if contains COLON (c :: l) then
         let '(key, val) := split_once COLON (c :: l) in
         entries ++ [(strip key, strip val)]
       else entries)).
  { destruct (contains COLON (c :: l)); [|done]. simpl negb. cbv iota.
    pose proof (split_once_snd_elem COLON (c :: l)) as Hsnd.
    destruct (split_once COLON (c :: l)) as [key val]. split; simpl.
    - rewrite fmap_app, Hent. f_equal. unfold first_line. simpl.
      rewrite split_once_fst_absent; [done|].
      intros Hin%strip_elem%Hsnd. unfold single_line in Hline.
      rewrite Forall_forall in Hline. by specialize (Hline _ Hin).
    - split; [done|]. by intros [_ ?]%app_eq_nil. }
  unfold parse_line, spec_parse_line.
  destruct (isspace c); [|exact Hfield].
  destruct (ps_last st) as [[k v]|] eqn:E.
  - assert (entries ≠ []) by (intros Hnil; apply Hlast in Hnil; congruence).
    rewrite bool_decide_eq_true_2 by done. split; simpl.
    + by rewrite first_line_extend_last.
    + split; [done|]. intros Hnil. by apply extend_last_nonempty in Hnil.
  - rewrite bool_decide_eq_false_2 by (intros Hne; apply Hne; by apply Hlast).
    exact Hfield.
Qed.

(** X1.  The field list the script returns is the list of the parser
    that appends continuation lines, with every value cut at its first
    newline: what continuation lines add is lost, and nothing else. *)
Lemma parse_control_first_lines control_text :
  parse_control control_text = first_line <$> spec_parse_control control_text.
Proof.
  unfold parse_control, spec_parse_control, parse_lines.
  pose proof (splitlines_single_line control_text) as Hlines.
  assert (Hgen : ∀ st entries, parse_related st entries →
    parse_related (fold_left parse_line (splitlines control_text) st)
                  (fold_left spec_parse_line (splitlines control_text) entries)).
  { induction Hlines as [|l ls Hl _ IH]; intros st entries Hrel; [done|].
    simpl. apply IH. by apply parse_line_related. }
  by destruct (Hgen parse_init [] (conj eq_refl (conj (λ _, eq_refl) (λ _, eq_refl)))).
Qed.

(** C3.  On a control text with a continuation line the script returns the
    field without it, where the specified parser appends it; the loop's
    own [last] cell did receive the line. *)
Theorem parse_control_loses_continuation :
  let control_text :=
    lit "Package: hello" ++ [NL] ++ lit "Description: short" ++ [NL]
      ++ lit " long text" ++ [NL] in
  parse_control control_text
    = [(lit "Package", lit "hello"); (lit "Description", lit "short")]
  ∧ spec_parse_control control_text
    = [(lit "Package", lit "hello");
       (lit "Description", lit "short" ++ [NL] ++ lit " long text")]
  ∧ ps_last (parse_lines parse_init (splitlines control_text))
    = Some (lit "Description", lit "short" ++ [NL] ++ lit " long text").
Proof. by vm_compute. Qed.

(** ** [extract_control_fields]: outcomes *)

Arguments startswith : simpl never.
Arguments splitlines : simpl never.
Arguments parse_control : simpl never.
Arguments format_entry : simpl never.
Arguments tar_mode_of : simpl never.
Arguments is_control : simpl never.
Arguments str_of_int : simpl never.

Ltac unfold_io :=
  unfold run_ar, read_bytes, read_text, write_text, get_file, set_file, touch,
    or_raise, raise, mbind, IO_bind, mret, IO_ret in *.

Section Extract.
Context (P : Platform).

Lemma control_member_nonempty out : control_member_of out ≠ Some [].
Proof.
  unfold control_member_of. intros H. apply find_some in H as [_ H]. done.
Qed.

Lemma extract_control_fields_outcome deb_name deb w :
  extract_outcome P deb_name deb (extract_control_fields P deb_name deb w).2.
Proof.
  unfold extract_control_fields. unfold_io. destruct deb as [data|]; simpl;
    [|constructor].
  destruct (ar_t P data) as [out|] eqn:Hout; simpl; [|by constructor].
  fold (control_member_of out).
  pose proof (control_member_nonempty out) as Hne.
  destruct (control_member_of out) as [[|c cm]|] eqn:Hcm; [done| |]; simpl;
    [|by eapply eo_no_control_tar].
  destruct (ar_p P data (c :: cm)) as [control_blob|] eqn:Hblob; simpl;
    [|by eapply eo_extraction_fails].
  destruct (tar_getmembers P (tar_mode_of (c :: cm)) control_blob)
    as [members|] eqn:Htar; simpl; [|by eapply eo_tarball_unreadable].
  destruct (List.find is_control members) as [member|] eqn:Hmember; simpl.
  - by eapply eo_parsed.
  - by eapply eo_no_control_file.
Qed.

(** A call only extends the access log, by the name of its package. *)
Lemma extract_control_fields_world deb_name deb w :
  ∃ k, (extract_control_fields P deb_name deb w).1
       = World (debs w) (files w) (opened w ++ replicate k deb_name).
Proof.
  unfold extract_control_fields. unfold_io. destruct deb as [data|]; simpl;
    [|by exists 1%nat].
  destruct (ar_t P data) as [out|]; simpl; [|by exists 1%nat].
  destruct (List.find _ (splitlines out)) as [[|c cm]|]; simpl;
    try (by exists 1%nat).
  destruct (ar_p P data (c :: cm)) as [control_blob|]; simpl;
    [|exists 2%nat; by rewrite <- app_assoc].
  destruct (tar_getmembers P _ control_blob) as [members|]; simpl;
    [|exists 2%nat; by rewrite <- app_assoc].
  destruct (List.find is_control members); simpl;
    exists 2%nat; by rewrite <- app_assoc.
Qed.

(** Its result does not depend on the world it runs in. *)
Lemma extract_control_fields_result deb_name deb w w0 :
  (extract_control_fields P deb_name deb w).2
  = (extract_control_fields P deb_name deb w0).2.
Proof.
  unfold extract_control_fields. unfold_io. destruct deb as [data|]; simpl;
    [|done].
  destruct (ar_t P data) as [out|]; simpl; [|done].
  destruct (List.find _ (splitlines out)) as [[|c cm]|]; simpl; try done.
  destruct (ar_p P data (c :: cm)) as [control_blob|]; simpl; [|done].
  destruct (tar_getmembers P _ control_blob) as [members|]; simpl; [|done].
  by destruct (List.find is_control members).
Qed.

(** C8, as amended.  Whatever the package file is, a call ends in one of
    the ways of [extract_outcome].  It raises a RuntimeError exactly when
    [ar t] gave a listing and either the listing names no control.tar.*
    member, or that member was extracted and opened as a tarball and holds
    no regular file whose base name is control.  When both [ar] calls and
    the opening of the tarball succeed and neither holds, it returns the
    parsed fields of that control file. *)
Theorem extract_control_fields_errors deb_name deb w :
  let r := (extract_control_fields P deb_name deb w).2 in
  extract_outcome P deb_name deb r
  ∧ ((∃ msg, r = Raise (RuntimeError msg)) ↔
     ∃ data out, deb = File data ∧ ar_t P data = Some out ∧
       (control_member_of out = None
        ∨ ∃ control_member control_blob members,
            control_member_of out = Some control_member
            ∧ ar_p P data control_member = Some control_blob
            ∧ tar_getmembers P (tar_mode_of control_member) control_blob
              = Some members
            ∧ List.find is_control members = None))
  ∧ (∀ data out control_member control_blob members member,
       deb = File data → ar_t P data = Some out →
       control_member_of out = Some control_member →
       ar_p P data control_member = Some control_blob →
       tar_getmembers P (tar_mode_of control_member) control_blob = Some members →
       List.find is_control members = Some member →
       r = Ok (parse_control (utf8_decode_replace P (tm_data member)))).
Proof.
  intros r. pose proof (extract_control_fields_outcome deb_name deb w) as Hr.
  fold r in Hr. split_and!; [done| |].
  - split.
    + intros [msg Hmsg]. rewrite Hmsg in Hr. inversion Hr; subst; naive_solver.
    + intros (data & out & -> & Hout & Hcase).
      inversion Hr; subst; try (by eexists); destruct Hcase as
        [Hnone|(cm & cb & ms & Hcm & Hblob & Htar & Hfind)]; congruence.
  - intros data out cm cb ms member -> Hout Hcm Hblob Htar Hfind.
    inversion Hr; subst; congruence.
Qed.

End Extract.

(** C8 fails as stated: a call can end in neither a RuntimeError nor a
    field list.  On a package file [ar] cannot list the error of the
    subprocess comes out, and on a control tarball that does not open,
    the error of [tarfile]. *)
Lemma extract_control_fields_tool_errors :
  (extract_control_fields sample_platform (lit "empty.deb") (File [])
     sample_world).2 = Raise CalledProcessError
  ∧ control_member_of (default [] (ar_t sample_platform [Byte.x00]))
    = Some (lit "control.tar.gz")
  ∧ (extract_control_fields sample_platform (lit "torn.deb") (File [Byte.x00])
       sample_world).2 = Raise TarError.
Proof. by vm_compute. Qed.

(** The outcome of a readable package on the sample platform. *)
Lemma extract_control_fields_errors_witness :
  (extract_control_fields sample_platform (lit "hello.deb")
     (File sample_control) sample_world).2
  = Ok [(lit "Package", lit "hello"); (lit "Version", lit "2.10")].
Proof.
  pose proof (extract_control_fields_errors sample_platform (lit "hello.deb")
                (File sample_control) sample_world) as (_ & _ & H).
  rewrite (H _ _ _ _ _ _ eq_refl eq_refl eq_refl eq_refl eq_refl eq_refl).
  by vm_compute.
Defined.

(** ** The order of paths *)

Lemma str_leb_total a b : str_leb a b = true ∨ str_leb b a = true.
Proof.
  revert b. induction a as [|x a IH]; intros [|y b]; simpl; auto.
  destruct (N.ltb_spec x y), (N.ltb_spec y x); auto; lia.
Qed.

Lemma str_leb_trans a b c :
  str_leb a b = true → str_leb b c = true → str_leb a c = true.
Proof.
  revert b c. induction a as [|x a IH]; intros [|y b] [|z c]; simpl; try done.
  destruct (N.ltb_spec x y), (N.ltb_spec y x), (N.ltb_spec y z),
    (N.ltb_spec z y), (N.ltb_spec x z), (N.ltb_spec z x);
    try done; try lia; eauto.
Qed.

Lemma str_leb_antisym a b : str_leb a b = true → str_leb b a = true → a = b.
Proof.
  revert b. induction a as [|x a IH]; intros [|y b]; simpl; try done.
  destruct (N.ltb_spec x y), (N.ltb_spec y x); try done; try lia.
  intros Hab Hba. f_equal; [lia|]. by apply IH.
Qed.

#[global] Instance path_le_total : Total path_le.
Proof. intros p q. apply str_leb_total. Qed.

#[global] Instance path_le_trans : Transitive path_le.
Proof. intros p q r. apply str_leb_trans. Qed.

(** ** The paths [build_packages] visits *)

Lemma elem_of_deb_paths deb_dir p :
  p ∈ deb_paths deb_dir ↔ deb_dir !! p.1 = Some p.2 ∧ suffix p.1 = lit ".deb".
Proof.
  unfold deb_paths. rewrite merge_sort_Permutation, list_elem_of_filter.
  rewrite elem_of_map_to_list'. unfold is_deb. tauto.
Qed.

Lemma deb_paths_sorted deb_dir : StronglySorted path_le (deb_paths deb_dir).
Proof. apply StronglySorted_merge_sort; apply _. Qed.

Lemma deb_paths_names_unique deb_dir : NoDup (deb_paths deb_dir).*1.
Proof.
  unfold deb_paths. rewrite merge_sort_Permutation.
  eapply sublist_NoDup; [apply (NoDup_fst_map_to_list deb_dir)|].
  apply fmap_sublist, sublist_filter.
Qed.

(** Two sorted listings of entries of one directory with the same members
    are the same list. *)
Lemma deb_paths_unique (deb_dir : gmap str node) (l1 l2 : list (str * node)) :
  (∀ p, p ∈ l1 → deb_dir !! p.1 = Some p.2) →
  (∀ p, p ∈ l2 → deb_dir !! p.1 = Some p.2) →
  StronglySorted path_le l1 → StronglySorted path_le l2 →
  l1 ≡ₚ l2 → l1 = l2.
Proof.
  intros H1 H2. apply StronglySorted_unique_strong.
  intros [n1 x1] [n2 x2] Hin1 Hin2 Hle Hge.
  pose proof (str_leb_antisym _ _ Hle Hge) as Heq. simpl in Heq. subst n2.
  apply H1 in Hin1. apply H2 in Hin2. simpl in *. congruence.
Qed.

Lemma deb_paths_delete deb_dir name :
  suffix name ≠ lit ".deb" → deb_paths (delete name deb_dir) = deb_paths deb_dir.
Proof.
  intros Hname. apply (deb_paths_unique deb_dir).
  - intros p [Hp _]%elem_of_deb_paths.
    apply lookup_delete_Some in Hp as [_ Hp]. done.
  - by intros p [Hp _]%elem_of_deb_paths.
  - apply deb_paths_sorted.
  - apply deb_paths_sorted.
  - unfold deb_paths. rewrite !merge_sort_Permutation.
    destruct (deb_dir !! name) as [x|] eqn:Hx.
    + rewrite <- (map_to_list_delete deb_dir name x Hx).
      rewrite filter_cons_False; [done|]. unfold is_deb. done.
    + by rewrite delete_id.
Qed.

Lemma startswith_app p s : startswith p (p ++ s) = true.
Proof.
  induction p as [|c p IH]; [done|].
  cbn [app]. unfold startswith. fold startswith. by rewrite N.eqb_refl, IH.
Qed.

Lemma suffix_endswith name sfx :
  sfx ≠ [] → suffix name = sfx → endswith sfx name = true.
Proof.
  intros Hne Hs. unfold suffix in Hs.
  destruct (rfind DOT name) as [i|]; [|congruence].
  case_bool_decide; [|congruence].
  unfold endswith. rewrite <- (take_drop i name) at 1.
  rewrite Hs, reverse_app. apply startswith_app.
Qed.

(** ** [build_packages] *)

Lemma log_extends_refl names w : log_extends names w w.
Proof. split_and!; try done. exists []. by rewrite app_nil_r. Qed.

Lemma log_extends_trans names w1 w2 w3 :
  log_extends names w1 w2 → log_extends names w2 w3 → log_extends names w1 w3.
Proof.
  intros (Hd1 & Hf1 & t1 & Ht1 & Hin1) (Hd2 & Hf2 & t2 & Ht2 & Hin2).
  split_and!; [congruence..|]. exists (t1 ++ t2). split.
  - by rewrite Ht2, Ht1, app_assoc.
  - by apply Forall_app_2.
Qed.

Lemma log_extends_mono names names' w w' :
  (∀ n, n ∈ names → n ∈ names') → log_extends names w w' → log_extends names' w w'.
Proof.
  intros Hsub (Hd & Hf & t & Ht & Hin). split_and!; try done.
  exists t. split; [done|]. eapply Forall_impl; [exact Hin|]. exact Hsub.
Qed.

Lemma log_extends_touch name w :
  log_extends [name] w (World (debs w) (files w) (opened w ++ [name])).
Proof.
  split_and!; try done. exists [name]. split; [done|].
  repeat constructor.
Qed.

Section Build.
Context (P : Platform).

Lemma extract_control_fields_log deb_name deb w :
  log_extends [deb_name] w (extract_control_fields P deb_name deb w).1.
Proof.
  destruct (extract_control_fields_world P deb_name deb w) as [k ->].
  split_and!; try done. eexists. split; [done|].
  apply Forall_forall. intros n ->%elem_of_replicate_inv. set_solver.
Qed.

Lemma build_loop_spec paths entries w :
  log_extends paths.*1 w (build_loop P paths entries w).1
  ∧ ∀ out, (build_loop P paths entries w).2 = Ok out →
      ∃ es, out = entries ++ es ∧ Forall2 (package_entry P) paths es.
Proof.
  revert entries w. induction paths as [|[deb_name deb] rest IH]; intros entries w.
  - split; [apply log_extends_refl|]. intros out [= <-]. exists [].
    split; [by rewrite app_nil_r|constructor].
  - cbn [build_loop]. unfold mbind, IO_bind.
    assert (Hhead : ∀ n, n ∈ [deb_name] → n ∈ ((deb_name, deb) :: rest).*1).
    { intros n ->%list_elem_of_singleton. left. }
    assert (Htail : ∀ n, n ∈ rest.*1 → n ∈ ((deb_name, deb) :: rest).*1).
    { intros n Hn. by right. }
    pose proof (log_extends_mono _ _ _ _ Hhead
                  (extract_control_fields_log deb_name deb w)) as Hlog1.
    pose proof (extract_control_fields_result P deb_name deb w) as Hres.
    destruct (extract_control_fields P deb_name deb w) as [w1 [control|e]];
      cbn [fst snd] in Hlog1, Hres; [|by split].
    pose proof (log_extends_mono _ _ _ _ Hhead (log_extends_touch deb_name w1))
      as Hlog2.
    unfold_io. destruct deb as [data|]; cbn [fst snd].
    + set (w2 := World (debs w1) (files w1) (opened w1 ++ [deb_name])) in *.
      set (entry := format_entry control (lit "debs/" ++ deb_name)
                      (Z.of_nat (length data)) (md5_hexdigest P data)).
      destruct (IH (entries ++ [entry]) w2) as [Hlog Hout]. split.
      * eapply log_extends_trans; [exact Hlog1|].
        eapply log_extends_trans; [exact Hlog2|].
        eapply log_extends_mono; [exact Htail|exact Hlog].
      * intros out Hr. destruct (Hout out Hr) as (es & -> & Hes).
        exists (entry :: es). split; [by rewrite <- app_assoc|].
        constructor; [|done]. by exists data, control.
    + split; [|done]. eapply log_extends_trans; [exact Hlog1|exact Hlog2].
Qed.

Lemma build_packages_spec deb_dir w w' content :
  build_packages P deb_dir w = (w', Ok content) →
  log_extends (deb_paths deb_dir).*1 w w'
  ∧ ∃ entries, Forall2 (package_entry P) (deb_paths deb_dir) entries
               ∧ content = concat entries.
Proof.
  unfold build_packages, mbind, IO_bind, mret, IO_ret.
  destruct (build_loop_spec (deb_paths deb_dir) [] w) as [Hlog Hout].
  destruct (build_loop P (deb_paths deb_dir) [] w) as [w1 [entries|e]];
    intros [= <- <-]. split; [done|].
  destruct (Hout entries eq_refl) as (es & -> & Hes). by exists es.
Qed.

(** C1.  When [build_packages] returns the index, each regular file of
    the directory whose suffix is .deb has its entry in it, and the entry
    ends with the fields Filename, "debs/" and the file's name; Size,
    the length of the file in bytes; and MD5sum, the digest of its bytes. *)
Theorem build_packages_records_file deb_dir w w' content name data :
  build_packages P deb_dir w = (w', Ok content) →
  deb_dir !! name = Some (File data) →
  suffix name = lit ".deb" →
  ∃ control before after,
    (extract_control_fields P name (File data) w).2 = Ok control
    ∧ content
      = before
        ++ (render_fields (filter (λ kv, kv.1 ∉ reserved_keys) control)
            ++ lit "Filename: " ++ (lit "debs/" ++ name) ++ [NL]
            ++ lit "Size: " ++ str_of_int (Z.of_nat (length data)) ++ [NL]
            ++ lit "MD5sum: " ++ md5_hexdigest P data ++ [NL; NL])
        ++ after.
Proof.
  intros Hrun Hfile Hsuffix.
  apply build_packages_spec in Hrun as (_ & entries & Hentries & ->).
  assert (Hin : (name, File data) ∈ deb_paths deb_dir)
    by (by apply elem_of_deb_paths).
  apply list_elem_of_split in Hin as (l1 & l2 & Hsplit).
  rewrite Hsplit in Hentries.
  apply Forall2_app_inv_l in Hentries as (es1 & es2' & _ & Hcons & ->).
  apply Forall2_cons_inv_l in Hcons as (entry & es2 & Hentry & _ & ->).
  destruct Hentry as (data' & control & [= <-] & Hcontrol & ->).
  exists control, (concat es1), (concat es2). split; [apply Hcontrol|].
  by rewrite concat_app, concat_cons, format_entry_text.
Qed.

(** C2.  The index [build_packages] returns is the concatenation of the
    entries of exactly the directory's entries whose suffix is .deb,
    taken in the order of their paths, each path once; every entry is a
    run of field lines closed by a blank line. *)
Theorem build_packages_content deb_dir w w' content :
  build_packages P deb_dir w = (w', Ok content) →
  ∃ paths entries,
    (∀ p, p ∈ paths ↔ deb_dir !! p.1 = Some p.2 ∧ suffix p.1 = lit ".deb")
    ∧ StronglySorted path_le paths
    ∧ NoDup paths.*1
    ∧ Forall2 (package_entry P) paths entries
    ∧ Forall (λ e, ∃ fields, e = render_fields fields ++ [NL]) entries
    ∧ content = concat entries.
Proof.
  intros Hrun. apply build_packages_spec in Hrun as (_ & entries & Hentries & ->).
  exists (deb_paths deb_dir), entries. split_and!; try done.
  - apply elem_of_deb_paths.
  - apply deb_paths_sorted.
  - apply deb_paths_names_unique.
  - clear -Hentries. induction Hentries as [|p e ps es (d & c & _ & _ & ->) _ IH];
      constructor; [|done]. eexists. apply format_entry_render.
Qed.

(** C7.  An entry of the directory whose name does not end in .deb is not
    among the paths visited and its content is never accessed, whether
    the run succeeds or not; with or without it, and whatever it holds,
    [build_packages] does the same. *)
Theorem build_packages_skips_other_names deb_dir name w :
  endswith (lit ".deb") name = false →
  (name ∉ (deb_paths deb_dir).*1)
  ∧ (name ∉ opened w → name ∉ opened (build_packages P deb_dir w).1)
  ∧ build_packages P (delete name deb_dir) w = build_packages P deb_dir w
  ∧ ∀ x, build_packages P (<[name := x]> deb_dir) w = build_packages P deb_dir w.
Proof.
  intros Hname.
  assert (Hsuffix : suffix name ≠ lit ".deb").
  { intros Hs. apply suffix_endswith in Hs; [congruence|done]. }
  assert (Hnot : name ∉ (deb_paths deb_dir).*1).
  { intros ([n x] & -> & Hin)%list_elem_of_fmap.
    apply elem_of_deb_paths in Hin as [_ Hs]. done. }
  assert (Hdel : ∀ d, build_packages P (delete name d) w = build_packages P d w).
  { intros d. unfold build_packages. by rewrite deb_paths_delete. }
  split_and!; [done| |done|].
  - intros Hw Hin. unfold build_packages, mbind, IO_bind, mret, IO_ret in Hin.
    destruct (build_loop_spec (deb_paths deb_dir) [] w) as [Hlog _].
    destruct (build_loop P (deb_paths deb_dir) [] w) as [w1 [entries|e]];
      simpl in Hin, Hlog; destruct Hlog as (_ & _ & t & Ht & Hall);
      rewrite Ht, elem_of_app in Hin; destruct Hin as [Hin|Hin]; try done;
      rewrite Forall_forall in Hall; by apply Hall in Hin.
  - intros x. by rewrite <- (Hdel (<[name := x]> deb_dir)), delete_insert_eq, Hdel.
Qed.

End Build.

(** ** [update_release] *)

Lemma scan_header_spec lines acc :
  scan_header lines acc
  = acc ++ before_header lines ++ [default (lit "MD5Sum:") (header_of lines)].
Proof.
  revert acc. induction lines as [|line rest IH]; intros acc; [done|].
  cbn [scan_header before_header]. unfold header_of. cbn [List.find].
  case_decide as Hline.
  - by rewrite bool_decide_eq_true_2.
  - rewrite bool_decide_eq_false_2 by done. rewrite IH.
    by rewrite <- !app_assoc.
Qed.

Lemma before_header_prefix lines : before_header lines `prefix_of` lines.
Proof.
  induction lines as [|line rest IH]; [done|]. cbn [before_header].
  case_decide; [apply prefix_nil|]. by apply prefix_cons.
Qed.

Lemma before_header_all lines :
  header_of lines = None → before_header lines = lines.
Proof.
  unfold header_of. induction lines as [|line rest IH]; [done|].
  cbn [List.find before_header]. case_bool_decide; [done|].
  rewrite decide_False by done. intros Hrest. by rewrite IH.
Qed.

Lemma before_header_no_header lines :
  Forall (λ line, line ≠ lit "MD5Sum:") (before_header lines).
Proof.
  induction lines as [|line rest IH]; [constructor|]. cbn [before_header].
  case_decide as Hline; constructor; [|done]. by intros ->.
Qed.

Lemma index_end x l y :
  Forall (λ z, z ≠ x) l →
  index x (l ++ [y]) = if decide (y = x) then Some (length l) else None.
Proof.
  unfold index. induction 1 as [|z l Hz _ IH]; simpl.
  - by case_decide.
  - rewrite decide_False by done.
    destruct (list_find (λ y0, y0 = x) (l ++ [y])) as [[i t]|]; simpl in *;
      case_decide; by simplify_eq.
Qed.

(** What lines 79-92 compute: the text is rewritten unless the first line
    that strips to MD5Sum: is not that text itself. *)
Lemma rewrite_release_spec release_text block :
  rewrite_release release_text block
  = match header_of (splitlines release_text) with
    | Some header =>
        if decide (header = lit "MD5Sum:")
        then Ok (rewritten (before_header (splitlines release_text)) block)
        else Raise ValueError
    | None => Ok (rewritten (splitlines release_text) block)
    end.
Proof.
  unfold rewrite_release, rewritten. rewrite scan_header_spec, app_nil_l.
  rewrite index_end by apply before_header_no_header.
  destruct (header_of (splitlines release_text)) as [header|] eqn:Hh;
    cbn [from_option id].
  - case_decide; [|done]. by rewrite take_app_length, <- !app_assoc.
  - rewrite decide_True by done.
    by rewrite take_app_length, before_header_all, <- !app_assoc.
Qed.

Lemma rewrite_release_ok release_text block new_text :
  rewrite_release release_text block = Ok new_text →
  new_text = rewritten (before_header (splitlines release_text)) block.
Proof.
  rewrite rewrite_release_spec.
  destruct (header_of (splitlines release_text)) eqn:Hh.
  - case_decide; congruence.
  - rewrite before_header_all by done. congruence.
Qed.

(** The lines of a rewritten manifest. *)
Lemma splitlines_app_unlines lines rest :
  Forall single_line lines →
  splitlines (unlines lines ++ rest) = lines ++ splitlines rest.
Proof.
  induction 1 as [|l ls Hl _ IH]; [done|].
  change (unlines (l :: ls)) with ((l ++ [NL]) ++ unlines ls).
  unfold splitlines at 1. rewrite <- !app_assoc. cbn [app].
  rewrite splitlines_from_line by done. by rewrite IH.
Qed.

Lemma splitlines_rewritten kept block :
  Forall single_line kept →
  splitlines (rewritten kept block)
  = (if decide (kept = []) then [[]] else kept)
    ++ lit "MD5Sum:" :: splitlines block.
Proof.
  intros Hkept. unfold rewritten.
  assert (Hhead : splitlines (lit "MD5Sum:" ++ [NL] ++ block)
                  = lit "MD5Sum:" :: splitlines block).
  { apply (splitlines_from_line [] (lit "MD5Sum:") block). by_evaluation. }
  case_decide as Hk.
  - subst kept. rewrite <- Hhead.
    apply (splitlines_from_line [] [] (lit "MD5Sum:" ++ [NL] ++ block)).
    constructor.
  - rewrite app_assoc, join_unlines by done.
    by rewrite splitlines_app_unlines, Hhead.
Qed.

Lemma splitlines_from_universal_newlines cur s :
  splitlines_from cur (universal_newlines s) = splitlines_from cur s.
Proof.
  remember (length s) as n eqn:Hn. revert cur s Hn.
  induction (lt_wf n) as [n _ IH]; intros cur [|c rest] ->; [done|].
  cbn [universal_newlines].
  destruct (N.eqb_spec c CR) as [->|Hc].
  - change (splitlines_from cur (CR :: rest))
      with (reverse cur :: match rest with
                           | d :: rest' => if d =? NL then splitlines_from [] rest'
                                           else splitlines_from [] rest
                           | [] => splitlines_from [] rest
                           end).
    destruct rest as [|d rest']; [done|].
    destruct (d =? NL).
    + change (splitlines_from cur (NL :: universal_newlines rest'))
        with (reverse cur :: splitlines_from [] (universal_newlines rest')).
      f_equal. eapply IH; [|reflexivity]. simpl; lia.
    + change (splitlines_from cur (NL :: universal_newlines (d :: rest')))
        with (reverse cur :: splitlines_from [] (universal_newlines (d :: rest'))).
      f_equal. eapply IH; [|reflexivity]. simpl; lia.
  - cbn [splitlines_from]. apply N.eqb_neq in Hc. rewrite Hc.
    destruct (is_linebreak c); [f_equal|]; (eapply IH; [|reflexivity]); simpl; lia.
Qed.

Lemma splitlines_universal_newlines s :
  splitlines (universal_newlines s) = splitlines s.
Proof. apply splitlines_from_universal_newlines. Qed.

Section Release.
Context (P : Platform).

(** A successful call, step by step. *)
Lemma update_release_ok release_path packages_content packages_bz2 w w' :
  update_release P release_path packages_content packages_bz2 w = (w', Ok tt) →
  ∃ old old_text encoded bz2_data new_text new,
    files w !! release_path = Some old
    ∧ utf8_decode P old = Some old_text
    ∧ utf8_encode P packages_content = Some encoded
    ∧ files w !! packages_bz2 = Some bz2_data
    ∧ rewrite_release (universal_newlines old_text)
        (md5_block (md5_hexdigest P encoded) (Z.of_nat (length encoded))
           (md5_hexdigest P bz2_data) (Z.of_nat (length bz2_data)))
      = Ok new_text
    ∧ utf8_encode P new_text = Some new
    ∧ w' = World (debs w) (<[release_path := new]> (files w)) (opened w).
Proof.
  unfold update_release. unfold_io.
  destruct (files w !! release_path) as [old|] eqn:Hold; [|done]. cbn [fst snd].
  destruct (utf8_decode P old) as [old_text|] eqn:Hdec; [|done].
  destruct (utf8_encode P packages_content) as [encoded|] eqn:Henc; [|done].
  destruct (files w !! packages_bz2) as [bz2_data|] eqn:Hbz; [|done].
  destruct (rewrite_release _ _) as [new_text|e] eqn:Hrw; [|done].
  destruct (utf8_encode P new_text) as [new|] eqn:Hnew; [|done].
  intros [= <-]. by exists old, old_text, encoded, bz2_data, new_text, new.
Qed.

(** A call touches no file but the manifest, however it ends. *)
Lemma update_release_frame release_path packages_content packages_bz2 w name :
  name ≠ release_path →
  files (update_release P release_path packages_content packages_bz2 w).1 !! name
  = files w !! name.
Proof.
  intros Hname. unfold update_release. unfold_io.
  destruct (files w !! release_path) as [old|]; [|done]. cbn [fst snd].
  destruct (utf8_decode P old) as [old_text|]; [|done].
  destruct (utf8_encode P packages_content) as [encoded|]; [|done].
  destruct (files w !! packages_bz2) as [bz2_data|]; [|done].
  destruct (rewrite_release _ _) as [new_text|e]; [|done].
  destruct (utf8_encode P new_text) as [new|]; cbn [fst files];
    by rewrite lookup_insert_ne.
Qed.

End Release.

Lemma before_header_split lines :
  Forall (λ line, strip line ≠ lit "MD5Sum:") (before_header lines)
  ∧ (before_header lines = lines
     ∨ ∃ header rest, lines = before_header lines ++ header :: rest
                      ∧ strip header = lit "MD5Sum:").
Proof.
  induction lines as [|line rest [IH1 IH2]]; [by split; [constructor|left]|].
  cbn [before_header]. case_decide as Hline.
  - split; [constructor|]. right. by exists line, rest.
  - split; [by constructor|]. destruct IH2 as [->|(h & r & Hr & Hh)]; [by left|].
    right. exists h, r. split; [|done]. by rewrite <- app_comm_cons, <- Hr.
Qed.

Lemma before_header_single_line lines :
  Forall single_line lines → Forall single_line (before_header lines).
Proof.
  induction 1 as [|line rest Hline _ IH]; [constructor|]. cbn [before_header].
  case_decide; by constructor.
Qed.

(** C4.  A manifest whose MD5Sum: header line carries a trailing space
    makes the scan stop at that line, which [index] then does not find:
    the rewriting raises ValueError whatever the new checksums are, and
    [update_release] leaves the manifest as it was. *)
Theorem update_release_padded_header :
  let release_text :=
    lit "Origin: repo" ++ [NL] ++ lit "MD5Sum: " ++ [NL]
      ++ lit " 00 1 Packages" ++ [NL] in
  utf8_decode sample_platform padded_release = Some release_text
  ∧ header_of (splitlines release_text) = Some (lit "MD5Sum: ")
  ∧ (∀ block, rewrite_release release_text block = Raise ValueError)
  ∧ update_release sample_platform (lit "Release") [] (lit "Packages.bz2")
      padded_world = (padded_world, Raise ValueError).
Proof. split_and!; [by vm_compute..|intros block; by vm_compute|by vm_compute]. Qed.

(** C5 fails as stated: what follows the MD5Sum: header in the manifest is
    not written back, here the SHA256: section. *)
Lemma update_release_drops_later_sections :
  ∃ old_text new new_text,
    utf8_decode sample_platform sample_release = Some old_text
    ∧ files (update_release sample_platform (lit "Release") []
               (lit "Packages.bz2") sample_indexed_world).1 !! lit "Release"
      = Some new
    ∧ utf8_decode sample_platform new = Some new_text
    ∧ lit "SHA256:" ∈ splitlines old_text
    ∧ lit "SHA256:" ∉ splitlines new_text.
Proof.
  eexists _, _, _. split_and!; [by vm_compute..| |]; by_evaluation.
Qed.

Section Main.
Context (P : Platform).

(** C5, as amended.  A successful [update_release] writes back, as lines
    closed by \n, the lines of the manifest that precede its first line
    that strips to MD5Sum: (all its lines when there is none), then the
    line MD5Sum: and the two checksum lines; no other file changes. *)
Theorem update_release_keeps_header_prefix
    release_path packages_content packages_bz2 w w' old old_text :
  update_release P release_path packages_content packages_bz2 w = (w', Ok tt) →
  files w !! release_path = Some old →
  utf8_decode P old = Some old_text →
  let lines := splitlines old_text in
  let kept := before_header lines in
  Forall (λ line, strip line ≠ lit "MD5Sum:") kept
  ∧ (kept = lines ∨ ∃ header rest, lines = kept ++ header :: rest
                                   ∧ strip header = lit "MD5Sum:")
  ∧ ∃ new new_text encoded bz2_data,
      let block := md5_block (md5_hexdigest P encoded) (Z.of_nat (length encoded))
                     (md5_hexdigest P bz2_data) (Z.of_nat (length bz2_data)) in
      files w' !! release_path = Some new
      ∧ utf8_encode P new_text = Some new
      ∧ utf8_encode P packages_content = Some encoded
      ∧ files w !! packages_bz2 = Some bz2_data
      ∧ new_text = join [NL] kept ++ [NL] ++ lit "MD5Sum:" ++ [NL] ++ block
      ∧ splitlines new_text
        = (if decide (kept = []) then [[]] else kept)
          ++ lit "MD5Sum:" :: splitlines block
      ∧ ∀ name, name ≠ release_path → files w' !! name = files w !! name.
Proof.
  intros Hrun Hold Hdec lines kept.
  destruct (before_header_split lines) as [Hkept Hsplit].
  split_and!; [done..|].
  pose proof (update_release_frame P release_path packages_content
                packages_bz2 w) as Hframe.
  rewrite Hrun in Hframe. cbn [fst] in Hframe.
  apply update_release_ok in Hrun
    as (old' & old_text' & encoded & bz2_data & new_text & new
        & Hold' & Hdec' & Henc & Hbz & Hrw & Hnew & ->).
  assert (old' = old) as -> by congruence.
  assert (old_text' = old_text) as -> by congruence.
  apply rewrite_release_ok in Hrw.
  rewrite splitlines_universal_newlines in Hrw. fold lines kept in Hrw.
  exists new, new_text, encoded, bz2_data. cbv zeta.
  split_and!; try done.
  - cbn [files]. apply lookup_insert_eq.
  - rewrite Hrw. apply splitlines_rewritten.
    apply before_header_single_line, splitlines_single_line.
Qed.

(** C6.  Once [build_packages] has returned the index and the index
    encodes, [main] leaves in Packages the encoded index and in
    Packages.bz2 its compression, however the rest of the run ends; so
    what decompresses Packages.bz2 gives the bytes of Packages. *)
Theorem main_writes_compressed_index w deb_dir w1 packages_content encoded :
  debs w = Some deb_dir →
  build_packages P deb_dir w = (w1, Ok packages_content) →
  utf8_encode P packages_content = Some encoded →
  let w' := (main P w).1 in
  files w' !! lit "Packages" = Some encoded
  ∧ files w' !! lit "Packages.bz2" = Some (bz2_compress P encoded)
  ∧ ∀ bz2_decompress : bytes → bytes,
      (∀ data, bz2_decompress (bz2_compress P data) = data) →
      bz2_decompress <$> files w' !! lit "Packages.bz2"
      = files w' !! lit "Packages".
Proof.
  intros Hdebs Hbuild Henc w'.
  set (fs := <[lit "Packages.bz2" := bz2_compress P encoded]>
               (<[lit "Packages" := encoded]> (files w1))).
  assert (Hw' : ∀ name, name ≠ lit "Release" → files w' !! name = fs !! name).
  { intros name Hname. subst w'. unfold main. rewrite Hdebs.
    unfold mbind, IO_bind. rewrite Hbuild. unfold write_text. rewrite Henc.
    unfold_io. cbn [fst snd files debs opened]. fold fs.
    destruct (fs !! lit "Release"); [|done].
    by rewrite update_release_frame. }
  assert (Hp : files w' !! lit "Packages" = Some encoded).
  { rewrite Hw' by (by vm_compute). unfold fs.
    rewrite lookup_insert_ne by (by vm_compute). apply lookup_insert_eq. }
  assert (Hb : files w' !! lit "Packages.bz2" = Some (bz2_compress P encoded)).
  { rewrite Hw' by (by vm_compute). apply lookup_insert_eq. }
  split_and!; [done..|].
  intros bz2_decompress Hinv. rewrite Hb, Hp. cbn [fmap option_fmap option_map].
  by rewrite Hinv.
Qed.

End Main.

(** ** Runs on the sample platform *)

Lemma sample_build :
  build_packages sample_platform sample_debs sample_world
  = (sample_visited, Ok sample_index).
Proof. by vm_compute. Qed.

Lemma build_packages_records_file_witness :
  ∃ control before after,
    (extract_control_fields sample_platform (lit "hello.deb")
       (File sample_control) sample_world).2 = Ok control
    ∧ sample_index
      = before
        ++ (render_fields (filter (λ kv, kv.1 ∉ reserved_keys) control)
            ++ lit "Filename: " ++ (lit "debs/" ++ lit "hello.deb") ++ [NL]
            ++ lit "Size: " ++ str_of_int (Z.of_nat (length sample_control)) ++ [NL]
            ++ lit "MD5sum: " ++ md5_hexdigest sample_platform sample_control
            ++ [NL; NL])
        ++ after.
Proof.
  apply (build_packages_records_file sample_platform sample_debs sample_world
           sample_visited sample_index (lit "hello.deb") sample_control);
    by vm_compute.
Defined.

Lemma build_packages_content_witness :
  ∃ paths entries,
    (∀ p, p ∈ paths ↔ sample_debs !! p.1 = Some p.2 ∧ suffix p.1 = lit ".deb")
    ∧ StronglySorted path_le paths
    ∧ NoDup paths.*1
    ∧ Forall2 (package_entry sample_platform) paths entries
    ∧ Forall (λ e, ∃ fields, e = render_fields fields ++ [NL]) entries
    ∧ sample_index = concat entries.
Proof.
  apply (build_packages_content sample_platform sample_debs sample_world
           sample_visited sample_index).
  by vm_compute.
Defined.

Lemma build_packages_skips_other_names_witness :
  (lit "README" ∉ (deb_paths sample_debs).*1)
  ∧ (lit "README" ∉ opened sample_world →
     lit "README" ∉ opened (build_packages sample_platform sample_debs sample_world).1)
  ∧ build_packages sample_platform (delete (lit "README") sample_debs) sample_world
    = build_packages sample_platform sample_debs sample_world
  ∧ ∀ x, build_packages sample_platform (<[lit "README" := x]> sample_debs)
           sample_world
         = build_packages sample_platform sample_debs sample_world.
Proof.
  apply (build_packages_skips_other_names sample_platform sample_debs
           (lit "README") sample_world).
  by vm_compute.
Defined.

Lemma update_release_keeps_header_prefix_witness :
  ∃ new new_text,
    files (update_release sample_platform (lit "Release") []
             (lit "Packages.bz2") sample_indexed_world).1 !! lit "Release"
    = Some new
    ∧ utf8_encode sample_platform new_text = Some new
    ∧ splitlines new_text
      = [lit "Origin: repo"; lit "MD5Sum:"; lit " 0 0 Packages";
         lit " 260 3 Packages.bz2"].
Proof.
  destruct (update_release_keeps_header_prefix sample_platform (lit "Release") []
              (lit "Packages.bz2") sample_indexed_world
              (update_release sample_platform (lit "Release") []
                 (lit "Packages.bz2") sample_indexed_world).1
              sample_release
              (lit "Origin: repo" ++ [NL] ++ lit "MD5Sum:" ++ [NL]
               ++ lit " 00 1 Packages" ++ [NL] ++ lit "SHA256:" ++ [NL]
               ++ lit " 11 1 Packages" ++ [NL]))
    as (_ & _ & new & new_text & encoded & bz2_data
        & Hnew & Henc & He & Hbz & _ & Hlines & _);
    [by vm_compute..|].
  exists new, new_text. split_and!; [done..|].
  rewrite Hlines. vm_compute in He, Hbz.
  injection He as <-. injection Hbz as <-. by vm_compute.
Defined.

Lemma main_writes_compressed_index_witness :
  let w' := (main sample_platform sample_world).1 in
  files w' !! lit "Packages" = ascii_encode sample_index
  ∧ files w' !! lit "Packages.bz2"
    = bz2_compress sample_platform <$> ascii_encode sample_index
  ∧ ∀ bz2_decompress : bytes → bytes,
      (∀ data, bz2_decompress (bz2_compress sample_platform data) = data) →
      bz2_decompress <$> files w' !! lit "Packages.bz2"
      = files w' !! lit "Packages".
Proof.
  destruct (ascii_encode sample_index) as [encoded|] eqn:Henc; [|by vm_compute in Henc].
  apply (main_writes_compressed_index sample_platform sample_world sample_debs
           sample_visited sample_index encoded);
    [done|by vm_compute|exact Henc].
Defined.

(** * Further properties of the script *)

(** ** What the field parser returns *)

Lemma lstrip_suffix s : ∃ ws, s = ws ++ lstrip s.
Proof.
  induction s as [|c s [ws IH]]; [by exists []|]. simpl.
  destruct (isspace c); [|by exists []]. exists (c :: ws). by rewrite IH at 1.
Qed.

Lemma rstrip_prefix s : ∃ ws, s = rstrip s ++ ws.
Proof.
  destruct (lstrip_suffix (reverse s)) as [ws Hws]. exists (reverse ws).
  unfold rstrip. by rewrite <- reverse_app, <- Hws, reverse_involutive.
Qed.

Lemma lstrip_head s :
  match lstrip s with c :: _ => isspace c = false | [] => True end.
Proof.
  induction s as [|c s IH]; [done|]. simpl.
  destruct (isspace c) eqn:Hc; [done|]. by simpl.
Qed.

Lemma lstrip_fixed s :
  match s with c :: _ => isspace c = false | [] => True end → lstrip s = s.
Proof. destruct s as [|c s]; [done|]. simpl. by intros ->. Qed.

Lemma lstrip_idemp s : lstrip (lstrip s) = lstrip s.
Proof. apply lstrip_fixed, lstrip_head. Qed.

Lemma rstrip_idemp s : rstrip (rstrip s) = rstrip s.
Proof. unfold rstrip. by rewrite reverse_involutive, lstrip_idemp. Qed.

Lemma rstrip_keeps_head s :
  match s with c :: _ => isspace c = false | [] => True end →
  match rstrip s with c :: _ => isspace c = false | [] => True end.
Proof.
  intros Hs. destruct (rstrip_prefix s) as [ws Hws].
  destruct (rstrip s) as [|c r]; [done|]. rewrite Hws in Hs. done.
Qed.

Lemma strip_idemp s : strip (strip s) = strip s.
Proof.
  unfold strip.
  rewrite (lstrip_fixed (rstrip (lstrip s)))
    by apply rstrip_keeps_head, lstrip_head.
  apply rstrip_idemp.
Qed.

Lemma strip_single_line s : single_line s → single_line (strip s).
Proof.
  unfold single_line. rewrite !Forall_forall. intros H c Hc.
  by apply H, strip_elem.
Qed.

Lemma split_once_fst_elem sep s c : c ∈ (split_once sep s).1 → c ∈ s.
Proof.
  revert c. induction s as [|d s IH]; intros c; simpl; [done|].
  destruct (d =? sep); simpl; [by intros ?%elem_of_nil|].
  destruct (split_once sep s). simpl in *.
  intros [->|H]%elem_of_cons; [left|right; by apply IH].
Qed.

Lemma split_once_fst_no_sep sep s : sep ∉ (split_once sep s).1.
Proof.
  induction s as [|d s IH]; simpl; [by intros ?%elem_of_nil|].
  destruct (N.eqb_spec d sep); simpl; [by intros ?%elem_of_nil|].
  destruct (split_once sep s). simpl in *.
  intros [->|H]%elem_of_cons; done.
Qed.

Lemma strip_plain s : single_line s → plain (strip s).
Proof. intros H. split; [apply strip_idemp|by apply strip_single_line]. Qed.

Lemma parse_line_plain st raw_line :
  single_line raw_line →
  Forall plain_field (ps_entries st) →
  Forall plain_field (ps_entries (parse_line st raw_line)).
Proof.
  intros Hline Hst. destruct raw_line as [|c l]; [done|].
  assert (Hfield :
    Forall plain_field (ps_entries
      (if negb (contains COLON (c :: l)) then st
       else let '(key, val) := split_once COLON (c :: l) in
            let last := (strip key, strip val) in
            ParseState (ps_entries st ++ [last]) (Some last)))).
  { destruct (contains COLON (c :: l)); [|done]. cbn [negb].
    pose proof (split_once_fst_elem COLON (c :: l)) as Hfst.
    pose proof (split_once_snd_elem COLON (c :: l)) as Hsnd.
    pose proof (split_once_fst_no_sep COLON (c :: l)) as Hsep.
    destruct (split_once COLON (c :: l)) as [key val]. cbn [fst snd] in *.
    unfold single_line in Hline. rewrite Forall_forall in Hline.
    apply Forall_app_2; [done|]. constructor; [|constructor].
    split_and!; cbn [fst snd].
    - apply strip_plain, Forall_forall. intros x Hx. by apply Hline, Hfst.
    - intros Hin%strip_elem. done.
    - apply strip_plain, Forall_forall. intros x Hx. by apply Hline, Hsnd. }
  unfold parse_line. destruct (isspace c); [|exact Hfield].
  destruct (ps_last st) as [[k v]|]; [exact Hst|exact Hfield].
Qed.

Lemma parse_control_plain control_text :
  Forall plain_field (parse_control control_text).
Proof.
  unfold parse_control, parse_lines.
  pose proof (splitlines_single_line control_text) as Hlines.
  assert (Hgen : ∀ st, Forall plain_field (ps_entries st) →
    Forall plain_field
      (ps_entries (fold_left parse_line (splitlines control_text) st))).
  { induction Hlines as [|l ls Hl _ IH]; intros st Hst; [done|].
    cbn [fold_left]. by apply IH, parse_line_plain. }
  apply Hgen. constructor.
Qed.

(** X2.  Whatever the control text is, every key and every value the
    field parser returns is free of line boundaries and of leading and
    trailing whitespace, and no key holds a colon. *)
Theorem parse_control_fields_plain control_text :
  Forall (λ kv, strip kv.1 = kv.1 ∧ single_line kv.1 ∧ (COLON ∉ kv.1)
                ∧ strip kv.2 = kv.2 ∧ single_line kv.2)
    (parse_control control_text).
Proof.
  eapply Forall_impl; [apply parse_control_plain|].
  intros kv ([? ?] & ? & [? ?]). done.
Qed.

(** The parser on the text [format_entry] writes for plain fields. *)
Lemma parse_format_fields entries filename size md5hex :
  Forall plain_field entries → plain filename → plain md5hex →
  splitlines (format_entry entries filename size md5hex)
    = (field_line <$> filtered_fields entries filename size md5hex) ++ [[]]
  ∧ parse_control (format_entry entries filename size md5hex)
    = filtered_fields entries filename size md5hex.
Proof.
  intros He Hf Hm.
  pose proof (filtered_fields_plain _ _ size _ He Hf Hm) as Hplain.
  set (fields := filtered_fields entries filename size md5hex) in *.
  assert (Hlines : splitlines (format_entry entries filename size md5hex)
                   = (field_line <$> fields) ++ [[]]).
  { rewrite format_entry_render, render_fields_unlines. fold fields.
    change [NL] with (unlines [[]]). rewrite <- unlines_app.
    apply splitlines_unlines, Forall_app_2; [|by repeat constructor].
    apply Forall_fmap. eapply Forall_impl; [exact Hplain|].
    intros kv. apply field_line_single. }
  split; [done|]. unfold parse_control. rewrite Hlines.
  unfold parse_lines. rewrite fold_left_app. cbn [fold_left parse_line].
  apply (parse_lines_fields parse_init fields Hplain).
Qed.

(** X3.  An entry written from the fields the parser returned reads back:
    for every control text, and a file name and digest free of line
    boundaries and of leading and trailing whitespace, parsing the entry
    [format_entry] writes from the parsed fields gives those fields without
    Filename, Size and MD5sum, followed by the three fields of the
    arguments. *)
Theorem parse_format_parsed_fields control_text filename size md5hex :
  plain filename → plain md5hex →
  parse_control (format_entry (parse_control control_text) filename size md5hex)
  = filter (λ kv, kv.1 ∉ reserved_keys) (parse_control control_text)
    ++ [(lit "Filename", filename); (lit "Size", str_of_int size);
        (lit "MD5sum", md5hex)].
Proof.
  intros Hf Hm.
  by destruct (parse_format_fields (parse_control control_text) filename size
                 md5hex (parse_control_plain control_text) Hf Hm).
Qed.

(** A parsed control text that carries a stale MD5sum, written and read
    back. *)
Lemma parse_format_parsed_fields_witness :
  parse_control
    (format_entry
       (parse_control (lit "Package: hello" ++ [NL] ++ lit "MD5sum: 0" ++ [NL]
                       ++ lit "Version : 2.10 " ++ [NL]))
       (lit "debs/hello.deb") 29 (lit "2351"))
  = [(lit "Package", lit "hello"); (lit "Version", lit "2.10");
     (lit "Filename", lit "debs/hello.deb"); (lit "Size", lit "29");
     (lit "MD5sum", lit "2351")].
Proof.
  rewrite (parse_format_parsed_fields
             (lit "Package: hello" ++ [NL] ++ lit "MD5sum: 0" ++ [NL]
              ++ lit "Version : 2.10 " ++ [NL])
             (lit "debs/hello.deb") 29 (lit "2351")); [|by_evaluation..].
  by vm_compute.
Defined.

(** X4.  An entry written from fields, a file name and a digest that are
    free of line boundaries and of leading and trailing whitespace, with no
    colon in a key, has one line "key: value" per field written, in order,
    and then one empty line. *)
Theorem format_entry_lines entries filename size md5hex :
  Forall plain_field entries → plain filename → plain md5hex →
  splitlines (format_entry entries filename size md5hex)
  = ((λ kv, kv.1 ++ lit ": " ++ kv.2) <$>
       (filter (λ kv, kv.1 ∉ reserved_keys) entries
        ++ [(lit "Filename", filename); (lit "Size", str_of_int size);
            (lit "MD5sum", md5hex)]))
    ++ [[]].
Proof.
  intros He Hf Hm.
  by destruct (parse_format_fields entries filename size md5hex He Hf Hm).
Qed.

Lemma format_entry_lines_witness :
  splitlines (format_entry [(lit "Package", lit "hello"); (lit "Size", lit "1")]
                (lit "debs/hello.deb") 29 (lit "2351"))
  = [lit "Package: hello"; lit "Filename: debs/hello.deb"; lit "Size: 29";
     lit "MD5sum: 2351"; []].
Proof.
  rewrite (format_entry_lines [(lit "Package", lit "hello"); (lit "Size", lit "1")]
             (lit "debs/hello.deb") 29 (lit "2351")); [|by_evaluation..].
  by vm_compute.
Defined.

Lemma filter_not_reserved_again (entries : list (str * str)) filename size md5hex :
  filter (λ kv, kv.1 ∉ reserved_keys) (filtered_fields entries filename size md5hex)
  = filter (λ kv, kv.1 ∉ reserved_keys) entries.
Proof.
  unfold filtered_fields. rewrite filter_app.
  rewrite !filter_cons_False, filter_nil, app_nil_r
    by (cbn [fst]; intros Hn; apply Hn; unfold reserved_keys;
        rewrite !elem_of_cons; tauto).
  induction entries as [|kv entries IH]; [done|].
  rewrite filter_cons. case_decide as Hkv; [|done].
  by rewrite filter_cons_True, IH.
Qed.

(** X5.  [format_entry] replaces the three trailing fields and never
    repeats them: given the field list of an entry it wrote (the kept
    fields followed by Filename, Size and MD5sum), with new arguments, it
    writes what it writes for the original fields with the new arguments. *)
Theorem format_entry_replaces_trailing_fields
    entries filename size md5hex filename' size' md5hex' :
  format_entry
    (filter (λ kv, kv.1 ∉ reserved_keys) entries
     ++ [(lit "Filename", filename); (lit "Size", str_of_int size);
         (lit "MD5sum", md5hex)])
    filename' size' md5hex'
  = format_entry entries filename' size' md5hex'.
Proof.
  pose proof (filter_not_reserved_again entries filename size md5hex) as Hkept.
  unfold filtered_fields in Hkept. by rewrite !format_entry_text, Hkept.
Qed.

(** X6.  Writing an entry is stable under reading it back: for plain
    fields, file name and digest, formatting the fields parsed from the
    entry [format_entry] wrote, with the same arguments, gives that entry
    again. *)
Theorem format_parse_format entries filename size md5hex :
  Forall plain_field entries → plain filename → plain md5hex →
  format_entry (parse_control (format_entry entries filename size md5hex))
    filename size md5hex
  = format_entry entries filename size md5hex.
Proof.
  intros He Hf Hm.
  destruct (parse_format_fields entries filename size md5hex He Hf Hm) as [_ ->].
  rewrite !format_entry_text.
  by rewrite (filter_not_reserved_again entries filename size md5hex).
Qed.

Lemma format_parse_format_witness :
  format_entry
    (parse_control
       (format_entry [(lit "Package", lit "hello"); (lit "Size", lit "1")]
          (lit "debs/hello.deb") 29 (lit "2351")))
    (lit "debs/hello.deb") 29 (lit "2351")
  = format_entry [(lit "Package", lit "hello"); (lit "Size", lit "1")]
      (lit "debs/hello.deb") 29 (lit "2351").
Proof.
  apply (format_parse_format [(lit "Package", lit "hello"); (lit "Size", lit "1")]
           (lit "debs/hello.deb") 29 (lit "2351")); by_evaluation.
Defined.

(** ** How [build_packages] ends *)

Section BuildOutcomes.
Context (P : Platform).

Lemma build_loop_prefix l1 es1 rest entries w :
  Forall2 (package_entry P) l1 es1 →
  ∃ w1, log_extends l1.*1 w w1
        ∧ build_loop P (l1 ++ rest) entries w
          = build_loop P rest (entries ++ es1) w1.
Proof.
  intros H. revert entries w.
  induction H as [|[deb_name deb] e l1 es1 Hpe _ IH]; intros entries w.
  - exists w. split; [apply log_extends_refl|by rewrite app_nil_r].
  - destruct Hpe as (data & control & Hd & Hc & ->). cbn [fst snd] in *.
    subst deb. cbn [app build_loop]. unfold mbind, IO_bind.
    assert (Hhead : ∀ n, n ∈ [deb_name] → n ∈ ((deb_name, File data) :: l1).*1).
    { intros n ->%list_elem_of_singleton. left. }
    assert (Htail : ∀ n, n ∈ l1.*1 → n ∈ ((deb_name, File data) :: l1).*1).
    { intros n Hn. by right. }
    pose proof (log_extends_mono _ _ _ _ Hhead
                  (extract_control_fields_log P deb_name (File data) w)) as Hlog1.
    specialize (Hc w).
    destruct (extract_control_fields P deb_name (File data) w) as [w1 r].
    cbn [fst snd] in Hlog1, Hc. subst r. unfold_io. cbn [fst snd].
    pose proof (log_extends_mono _ _ _ _ Hhead (log_extends_touch deb_name w1))
      as Hlog2.
    set (w2 := World (debs w1) (files w1) (opened w1 ++ [deb_name])) in *.
    set (entry := format_entry control (lit "debs/" ++ deb_name)
                    (Z.of_nat (length data)) (md5_hexdigest P data)).
    destruct (IH (entries ++ [entry]) w2) as (w3 & Hlog3 & Heq).
    exists w3. split.
    + eapply log_extends_trans; [exact Hlog1|].
      eapply log_extends_trans; [exact Hlog2|].
      eapply log_extends_mono; [exact Htail|exact Hlog3].
    + rewrite Heq. by rewrite <- app_assoc.
Qed.

Lemma package_entries_exist (paths : list (str * node)) :
  (∀ p, p ∈ paths → ∃ e, package_entry P p e) →
  ∃ es, Forall2 (package_entry P) paths es.
Proof.
  induction paths as [|p paths IH]; intros H; [by exists []|].
  destruct (H p) as [e He]; [left|].
  destruct IH as [es Hes]; [intros q Hq; apply H; by right|].
  exists (e :: es). by constructor.
Qed.

Lemma package_entry_iff deb_name deb w :
  (∃ e, package_entry P (deb_name, deb) e) ↔
  ∃ data control, deb = File data
    ∧ (extract_control_fields P deb_name deb w).2 = Ok control.
Proof.
  split.
  - intros (e & data & control & Hd & Hc & _). by exists data, control.
  - intros (data & control & -> & Hc). eexists. exists data, control.
    split_and!; [done| |done]. intros w0. cbn [fst snd].
    by rewrite (extract_control_fields_result P _ _ w0 w).
Qed.

(** X7.  However it ends, [build_packages] changes no file and nothing of
    the directory: the world it leaves differs only by the accesses it
    made, all to entries of the directory whose suffix is .deb. *)
Theorem build_packages_only_reads deb_dir w :
  let w' := (build_packages P deb_dir w).1 in
  debs w' = debs w ∧ files w' = files w
  ∧ ∃ accessed, opened w' = opened w ++ accessed
      ∧ ∀ name, name ∈ accessed →
          is_Some (deb_dir !! name) ∧ suffix name = lit ".deb".
Proof.
  intros w'. subst w'. unfold build_packages, mbind, IO_bind, mret, IO_ret.
  destruct (build_loop_spec P (deb_paths deb_dir) [] w) as [Hlog _].
  assert (Hw : log_extends (deb_paths deb_dir).*1 w
                 (let (w', r) := build_loop P (deb_paths deb_dir) [] w in
                  match r with
                  | Ok x => (w', Ok (concat x))
                  | Raise e => (w', Raise e)
                  end).1).
  { by destruct (build_loop P (deb_paths deb_dir) [] w) as [w1 [es|e]]. }
  destruct Hw as (Hd & Hf & t & Ht & Hall). split_and!; [done..|].
  exists t. split; [done|]. intros name Hname.
  rewrite Forall_forall in Hall. apply Hall in Hname.
  apply list_elem_of_fmap in Hname as ([n x] & -> & Hin).
  apply elem_of_deb_paths in Hin as [Hx Hs]. cbn [fst snd] in *.
  by rewrite Hx.
Qed.

(** X8.  [build_packages] returns the index exactly when every entry of
    the directory whose suffix is .deb is a regular file whose control
    fields [extract_control_fields] returns. *)
Theorem build_packages_succeeds_iff deb_dir w :
  (∃ w' content, build_packages P deb_dir w = (w', Ok content)) ↔
  ∀ name deb, deb_dir !! name = Some deb → suffix name = lit ".deb" →
    ∃ data control, deb = File data
      ∧ (extract_control_fields P name deb w).2 = Ok control.
Proof.
  split.
  - intros (w' & content & Hrun) name deb Hdeb Hs.
    apply build_packages_spec in Hrun as (_ & entries & Hentries & _).
    assert (Hin : (name, deb) ∈ deb_paths deb_dir) by (by apply elem_of_deb_paths).
    apply (package_entry_iff name deb w).
    apply list_elem_of_split in Hin as (l1 & l2 & Hsplit).
    rewrite Hsplit in Hentries.
    apply Forall2_app_inv_l in Hentries as (es1 & es2 & _ & Hcons & _).
    apply Forall2_cons_inv_l in Hcons as (e & es & He & _ & _). by exists e.
  - intros Hall.
    destruct (package_entries_exist (deb_paths deb_dir)) as [es Hes].
    { intros [name deb] [Hdeb Hs]%elem_of_deb_paths.
      apply (package_entry_iff name deb w). by apply Hall. }
    destruct (build_loop_prefix _ _ [] [] w Hes) as (w1 & _ & Heq).
    rewrite app_nil_r in Heq. unfold build_packages, mbind, IO_bind.
    rewrite Heq. cbn [build_loop]. by eexists _, _.
Qed.

(** X9.  When the packages before one in the order of paths all give
    their entries and [extract_control_fields] raises on that one,
    [build_packages] raises the same exception and has accessed no entry
    after it. *)
Theorem build_packages_first_failure deb_dir w before name deb after e :
  deb_paths deb_dir = before ++ (name, deb) :: after →
  (∀ p, p ∈ before → ∃ entry, package_entry P p entry) →
  (extract_control_fields P name deb w).2 = Raise e →
  (build_packages P deb_dir w).2 = Raise e
  ∧ ∀ n, n ∈ opened (build_packages P deb_dir w).1 →
      n ∈ opened w ∨ n ∈ before.*1 ∨ n = name.
Proof.
  intros Hpaths Hbefore Hfail.
  destruct (package_entries_exist before Hbefore) as [es Hes].
  destruct (build_loop_prefix _ _ ((name, deb) :: after) [] w Hes)
    as (w1 & Hlog1 & Heq).
  unfold build_packages, mbind, IO_bind. rewrite Hpaths, Heq.
  cbn [build_loop]. unfold mbind, IO_bind.
  pose proof (extract_control_fields_log P name deb w1) as Hlog2.
  pose proof (extract_control_fields_result P name deb w1 w) as Hres.
  rewrite Hfail in Hres.
  destruct (extract_control_fields P name deb w1) as [w2 r].
  cbn [fst snd] in Hlog2, Hres. subst r. split; [done|]. cbn [fst].
  destruct Hlog1 as (_ & _ & t1 & Ht1 & Hall1).
  destruct Hlog2 as (_ & _ & t2 & Ht2 & Hall2).
  intros n. rewrite Ht2, Ht1, !elem_of_app.
  rewrite Forall_forall in Hall1. rewrite Forall_forall in Hall2.
  intros [[Hn|Hn]|Hn]; [by left|right; left; by apply Hall1|].
  right; right. apply Hall2 in Hn. by apply list_elem_of_singleton in Hn.
Qed.

(** X10.  On a directory that holds no entry whose suffix is .deb,
    [build_packages] returns the empty index and accesses nothing. *)
Theorem build_packages_without_debs deb_dir w :
  (∀ name deb, deb_dir !! name = Some deb → suffix name ≠ lit ".deb") →
  build_packages P deb_dir w = (w, Ok []).
Proof.
  intros Hnone.
  assert (Hpaths : deb_paths deb_dir = []).
  { destruct (deb_paths deb_dir) as [|[name deb] l] eqn:E; [done|].
    assert (Hin : (name, deb) ∈ deb_paths deb_dir) by (rewrite E; left).
    apply elem_of_deb_paths in Hin as [Hdeb Hs]. by destruct (Hnone _ _ Hdeb). }
  unfold build_packages. by rewrite Hpaths.
Qed.

End BuildOutcomes.

(** ** How the manifest is rewritten *)

Lemma header_scan_app (kept : list str) header rest :
  Forall (λ line, strip line ≠ lit "MD5Sum:") kept →
  strip header = lit "MD5Sum:" →
  header_of (kept ++ header :: rest) = Some header
  ∧ before_header (kept ++ header :: rest) = kept.
Proof.
  intros Hkept Hheader. unfold header_of.
  induction Hkept as [|line kept Hline _ [IH1 IH2]];
    cbn [app List.find before_header].
  - by rewrite bool_decide_eq_true_2, decide_True.
  - rewrite bool_decide_eq_false_2, decide_False by done. by rewrite IH1, IH2.
Qed.

(** X11.  The rewriting of lines 79-92 raises only ValueError, and exactly
    when the first line of the manifest that strips to MD5Sum: is not that
    text itself; otherwise it gives the lines before that line (all lines
    when there is none), the line MD5Sum: and the checksum block. *)
Theorem rewrite_release_outcome release_text block :
  let lines := splitlines release_text in
  (rewrite_release release_text block = Raise ValueError ↔
   ∃ header, header_of lines = Some header ∧ header ≠ lit "MD5Sum:")
  ∧ (∀ e, rewrite_release release_text block = Raise e → e = ValueError)
  ∧ ((∀ header, header_of lines = Some header → header = lit "MD5Sum:") →
     rewrite_release release_text block
     = Ok (join [NL] (before_header lines) ++ [NL] ++ lit "MD5Sum:" ++ [NL]
           ++ block)).
Proof.
  intros lines. rewrite rewrite_release_spec. fold lines.
  destruct (header_of lines) as [header|] eqn:Hh.
  - case_decide as Hexact; split_and!.
    + split; [done|]. intros (h & [= <-] & Hne). done.
    + done.
    + done.
    + split; [by exists header|done].
    + by intros e [= <-].
    + intros Hall. by destruct Hexact; apply Hall.
  - split_and!.
    + split; [done|]. by intros (h & ? & _).
    + done.
    + intros _. by rewrite before_header_all.
Qed.

(** X12.  A rewritten manifest can be rewritten again: the second
    rewriting never raises, keeps the text up to and including the
    MD5Sum: line, and only replaces the checksum block. *)
Theorem rewrite_release_again release_text block new_text :
  rewrite_release release_text block = Ok new_text →
  ∃ prefix, new_text = prefix ++ block
    ∧ ∀ block', rewrite_release new_text block' = Ok (prefix ++ block').
Proof.
  intros Hrw. apply rewrite_release_ok in Hrw.
  set (kept := before_header (splitlines release_text)) in *.
  exists (join [NL] kept ++ [NL] ++ lit "MD5Sum:" ++ [NL]).
  split; [by rewrite Hrw; unfold rewritten; rewrite <- !app_assoc|].
  intros block'. rewrite rewrite_release_spec.
  destruct (before_header_split (splitlines release_text)) as [Hkept _].
  fold kept in Hkept.
  assert (Hsingle : Forall single_line kept)
    by apply before_header_single_line, splitlines_single_line.
  rewrite Hrw, (splitlines_rewritten kept block Hsingle).
  match goal with
  | |- context [header_of (?k ++ _)] => set (kept' := k)
  end.
  assert (Hkept' : Forall (λ line, strip line ≠ lit "MD5Sum:") kept').
  { subst kept'. case_decide; [|done]. by repeat constructor. }
  destruct (header_scan_app kept' (lit "MD5Sum:") (splitlines block) Hkept' eq_refl)
    as [Hheader Hbefore].
  unfold str in *. rewrite Hheader, Hbefore.
  rewrite decide_True by done. unfold rewritten. f_equal. subst kept'.
  case_decide as Hk; [by rewrite Hk|]. by rewrite <- !app_assoc.
Qed.

Section Effects.
Context (P : Platform).

Lemma update_release_world release_path packages_content packages_bz2 w :
  let w' := (update_release P release_path packages_content packages_bz2 w).1 in
  debs w' = debs w ∧ opened w' = opened w
  ∧ (∀ name, name ≠ release_path → files w' !! name = files w !! name)
  ∧ ∀ e, (update_release P release_path packages_content packages_bz2 w).2
           = Raise e →
      files w' = files w
      ∨ (e = UnicodeError ∧ files w' = <[release_path := []]> (files w)).
Proof.
  intros w'. subst w'. unfold update_release. unfold_io.
  destruct (files w !! release_path) as [old|]; [|by split_and!; auto].
  cbn [fst snd].
  destruct (utf8_decode P old) as [old_text|]; [|by split_and!; auto].
  destruct (utf8_encode P packages_content) as [encoded|]; [|by split_and!; auto].
  destruct (files w !! packages_bz2) as [bz2_data|]; [|by split_and!; auto].
  destruct (rewrite_release _ _) as [new_text|e0]; [|by split_and!; auto].
  destruct (utf8_encode P new_text) as [new|]; cbn [fst snd debs files opened];
    (split_and!; [done|done|by intros name Hname; rewrite lookup_insert_ne|]).
  - by intros e.
  - intros e [= <-]. by right.
Qed.


Lemma build_packages_world deb_dir w :
  log_extends (deb_paths deb_dir).*1 w (build_packages P deb_dir w).1.
Proof.
  unfold build_packages, mbind, IO_bind, mret, IO_ret.
  destruct (build_loop_spec P (deb_paths deb_dir) [] w) as [Hlog _].
  by destruct (build_loop P (deb_paths deb_dir) [] w) as [w1 [es|e]].
Qed.

(** What [main] does once the index is built and encoded. *)
Lemma main_run w deb_dir w1 packages_content encoded :
  debs w = Some deb_dir →
  build_packages P deb_dir w = (w1, Ok packages_content) →
  utf8_encode P packages_content = Some encoded →
  let w2 := World (debs w1)
              (<[lit "Packages.bz2" := bz2_compress P encoded]>
                 (<[lit "Packages" := encoded]> (files w1)))
              (opened w1) in
  main P w
  = match files w !! lit "Release" with
    | None => (w2, Raise (SystemExit (lit "Release file not found")))
    | Some _ =>
        update_release P (lit "Release") packages_content (lit "Packages.bz2") w2
    end.
Proof.
  intros Hdebs Hbuild Henc w2.
  destruct (build_packages_spec P _ _ _ _ Hbuild) as [(_ & Hfiles & _) _].
  unfold main. rewrite Hdebs. unfold mbind, IO_bind. rewrite Hbuild.
  unfold write_text. rewrite Henc. unfold_io. cbn [fst snd files debs opened].
  fold w2. rewrite !lookup_insert_ne by (by vm_compute). rewrite Hfiles.
  by destruct (files w !! lit "Release").
Qed.

End Effects.

(** ** How [main] ends *)

Section MainOutcomes.
Context (P : Platform).

(** X14.  However it ends, [main] leaves the directory of packages as it
    was and changes no file under the root other than Packages,
    Packages.bz2 and Release. *)
Theorem main_frame w name :
  name ≠ lit "Packages" → name ≠ lit "Packages.bz2" → name ≠ lit "Release" →
  debs (main P w).1 = debs w
  ∧ files (main P w).1 !! name = files w !! name.
Proof.
  intros Hp Hb Hr. unfold main. destruct (debs w) as [deb_dir|] eqn:Hdebs;
    [|by split].
  pose proof (build_packages_world P deb_dir w) as (Hd & Hf & _).
  destruct (build_packages P deb_dir w) as [w1 [content|e]] eqn:Hbuild;
    cbn [fst] in Hd, Hf.
  2:{ unfold mbind, IO_bind. rewrite Hbuild. cbn [fst]. by rewrite Hd, Hf. }
  destruct (utf8_encode P content) as [encoded|] eqn:Henc.
  - pose proof (main_run P w deb_dir w1 content encoded Hdebs Hbuild Henc) as Hrun.
    unfold main in Hrun. rewrite Hdebs in Hrun. rewrite Hrun.
    destruct (files w !! lit "Release").
    + destruct (update_release_world P (lit "Release") content
                  (lit "Packages.bz2")
                  (World (debs w1)
                     (<[lit "Packages.bz2" := bz2_compress P encoded]>
                        (<[lit "Packages" := encoded]> (files w1)))
                     (opened w1))) as (Hd' & _ & Hf' & _).
      rewrite Hd', Hf' by done. cbn [debs files].
      by rewrite !lookup_insert_ne, Hd, Hf.
    + cbn [fst debs files]. by rewrite !lookup_insert_ne, Hd, Hf.
  - unfold mbind, IO_bind. rewrite Hbuild. unfold write_text. rewrite Henc.
    unfold_io. cbn [fst snd debs files].
    by rewrite lookup_insert_ne, Hd, Hf.
Qed.

(** X15.  [main] writes nothing before the index is built: without a
    [debs] directory it exits at once, and when [build_packages] raises,
    the exception comes out and every file is as it was. *)
Theorem main_writes_nothing_on_build_failure w :
  (debs w = None →
   main P w = (w, Raise (SystemExit (lit "Missing debs directory"))))
  ∧ ∀ deb_dir e, debs w = Some deb_dir →
      (build_packages P deb_dir w).2 = Raise e →
      (main P w).2 = Raise e ∧ files (main P w).1 = files w.
Proof.
  split.
  - intros Hdebs. unfold main. by rewrite Hdebs.
  - intros deb_dir e Hdebs Hfail. unfold main. rewrite Hdebs.
    unfold mbind, IO_bind.
    pose proof (build_packages_world P deb_dir w) as (_ & Hf & _).
    destruct (build_packages P deb_dir w) as [w1 r]. cbn [fst snd] in *.
    by subst r.
Qed.

(** X16.  The index is written before the manifest is looked for: when
    the index is built and encodes and there is no Release file, [main]
    exits with SystemExit and leaves Packages and Packages.bz2 written. *)
Theorem main_without_release w deb_dir w1 packages_content encoded :
  debs w = Some deb_dir →
  build_packages P deb_dir w = (w1, Ok packages_content) →
  utf8_encode P packages_content = Some encoded →
  files w !! lit "Release" = None →
  (main P w).2 = Raise (SystemExit (lit "Release file not found"))
  ∧ files (main P w).1
    = <[lit "Packages.bz2" := bz2_compress P encoded]>
        (<[lit "Packages" := encoded]> (files w)).
Proof.
  intros Hdebs Hbuild Henc Hrelease.
  rewrite (main_run P w deb_dir w1 packages_content encoded Hdebs Hbuild Henc).
  rewrite Hrelease. cbn [fst snd files].
  destruct (build_packages_spec P _ _ _ _ Hbuild) as [(_ & -> & _) _]. done.
Qed.

Lemma rewrite_release_exact release_text block :
  (∀ header, header_of (splitlines release_text) = Some header →
             header = lit "MD5Sum:") →
  rewrite_release release_text block
  = Ok (rewritten (before_header (splitlines release_text)) block).
Proof.
  intros Hheader. rewrite rewrite_release_spec.
  destruct (header_of (splitlines release_text)) as [header|] eqn:Hh.
  - by rewrite decide_True by (by apply Hheader).
  - by rewrite before_header_all.
Qed.

Lemma update_release_succeeds release_path packages_content packages_bz2 w
    old old_text encoded bz2_data new_text new :
  files w !! release_path = Some old →
  utf8_decode P old = Some old_text →
  utf8_encode P packages_content = Some encoded →
  files w !! packages_bz2 = Some bz2_data →
  rewrite_release (universal_newlines old_text)
    (md5_block (md5_hexdigest P encoded) (Z.of_nat (length encoded))
       (md5_hexdigest P bz2_data) (Z.of_nat (length bz2_data)))
  = Ok new_text →
  utf8_encode P new_text = Some new →
  update_release P release_path packages_content packages_bz2 w
  = (World (debs w) (<[release_path := new]> (files w)) (opened w), Ok tt).
Proof.
  intros Hold Hdec Henc Hbz Hrw Hnew. unfold update_release. unfold_io.
  rewrite Hold. cbn [fst snd]. rewrite Hdec, Henc, Hbz, Hrw. by rewrite Hnew.
Qed.

(** X17.  A run of [main] that the manifest allows succeeds and leaves
    exactly three files changed: when the index is built and encodes, the
    Release file decodes, its first line that strips to MD5Sum:, if any,
    is that text itself, and the rewritten text encodes, [main] returns
    and the root holds the encoded index, its compression, and the
    manifest made of the lines before the header, the header and the
    checksums of those two files. *)
Theorem main_succeeds w deb_dir w1 packages_content encoded old old_text new :
  debs w = Some deb_dir →
  build_packages P deb_dir w = (w1, Ok packages_content) →
  utf8_encode P packages_content = Some encoded →
  files w !! lit "Release" = Some old →
  utf8_decode P old = Some old_text →
  (∀ header, header_of (splitlines old_text) = Some header →
             header = lit "MD5Sum:") →
  let compressed := bz2_compress P encoded in
  utf8_encode P
    (join [NL] (before_header (splitlines old_text)) ++ [NL]
     ++ lit "MD5Sum:" ++ [NL]
     ++ md5_block (md5_hexdigest P encoded) (Z.of_nat (length encoded))
          (md5_hexdigest P compressed) (Z.of_nat (length compressed)))
  = Some new →
  main P w
  = (World (debs w)
       (<[lit "Release" := new]>
          (<[lit "Packages.bz2" := compressed]>
             (<[lit "Packages" := encoded]> (files w))))
       (opened w1),
     Ok tt).
Proof.
  intros Hdebs Hbuild Henc Hrelease Hdec Hheader compressed Hnew.
  rewrite (main_run P w deb_dir w1 packages_content encoded Hdebs Hbuild Henc).
  rewrite Hrelease.
  destruct (build_packages_spec P _ _ _ _ Hbuild) as [(Hd & Hf & _) _].
  rewrite Hd, Hf.
  rewrite (update_release_succeeds _ _ _ _ old old_text encoded compressed
             (rewritten (before_header (splitlines old_text))
                (md5_block (md5_hexdigest P encoded) (Z.of_nat (length encoded))
                   (md5_hexdigest P compressed) (Z.of_nat (length compressed))))
             new); [done|..].
  - cbn [files]. by rewrite !lookup_insert_ne by (by vm_compute).
  - done.
  - done.
  - cbn [files]. apply lookup_insert_eq.
  - rewrite rewrite_release_exact; rewrite splitlines_universal_newlines; done.
  - done.
Qed.

(** X18.  When [main] returns, the manifest it leaves ends with the two
    checksum lines of the files it leaves: the digest and the length of
    the bytes now in Packages, and those of the bytes now in Packages.bz2,
    which are the compression of the former. *)
Theorem main_success_consistent w w' :
  main P w = (w', Ok tt) →
  ∃ packages release new_text prefix,
    let compressed := bz2_compress P packages in
    files w' !! lit "Packages" = Some packages
    ∧ files w' !! lit "Packages.bz2" = Some compressed
    ∧ files w' !! lit "Release" = Some release
    ∧ utf8_encode P new_text = Some release
    ∧ new_text
      = prefix
        ++ md5_block (md5_hexdigest P packages) (Z.of_nat (length packages))
             (md5_hexdigest P compressed) (Z.of_nat (length compressed)).
Proof.
  intros Hmain.
  destruct (debs w) as [deb_dir|] eqn:Hdebs;
    [|by unfold main in Hmain; rewrite Hdebs in Hmain].
  destruct (build_packages P deb_dir w) as [w1 [content|e]] eqn:Hbuild.
  2:{ unfold main in Hmain. rewrite Hdebs in Hmain.
      unfold mbind, IO_bind in Hmain. by rewrite Hbuild in Hmain. }
  destruct (utf8_encode P content) as [encoded|] eqn:Henc.
  2:{ unfold main in Hmain. rewrite Hdebs in Hmain.
      unfold mbind, IO_bind in Hmain. rewrite Hbuild in Hmain.
      unfold write_text in Hmain. rewrite Henc in Hmain. by unfold_io. }
  rewrite (main_run P w deb_dir w1 content encoded Hdebs Hbuild Henc) in Hmain.
  destruct (files w !! lit "Release") as [old0|]; [|done].
  apply update_release_ok in Hmain
    as (old & old_text & encoded' & bz2_data & new_text & new
        & _ & _ & Henc' & Hbz & Hrw & Hnew & ->).
  assert (encoded' = encoded) as -> by congruence.
  cbn [files] in Hbz. rewrite lookup_insert_eq in Hbz. injection Hbz as <-.
  apply rewrite_release_ok in Hrw.
  exists encoded, new, new_text,
    (join [NL] (before_header (splitlines (universal_newlines old_text)))
     ++ [NL] ++ lit "MD5Sum:" ++ [NL]).
  cbn [files]. split_and!.
  - rewrite !lookup_insert_ne by (by vm_compute). apply lookup_insert_eq.
  - rewrite lookup_insert_ne by (by vm_compute). apply lookup_insert_eq.
  - apply lookup_insert_eq.
  - done.
  - rewrite Hrw. unfold rewritten. by rewrite <- !app_assoc.
Qed.

End MainOutcomes.

(** ** Further runs on the sample platform *)

Lemma build_packages_first_failure_witness :
  (build_packages sample_platform sample_broken_debs sample_world).2
    = Raise CalledProcessError
  ∧ ∀ n, n ∈ opened (build_packages sample_platform sample_broken_debs
                       sample_world).1 →
      n ∈ opened sample_world
      ∨ n ∈ [(lit "apple.deb", File (blob "Package: apple"))].*1
      ∨ n = lit "broken.deb".
Proof.
  apply (build_packages_first_failure sample_platform sample_broken_debs
           sample_world
           [(lit "apple.deb", File (blob "Package: apple"))]
           (lit "broken.deb") (File [])
           [(lit "zeta.deb", File (blob "Package: zeta"))] CalledProcessError).
  - by vm_compute.
  - intros p ->%list_elem_of_singleton.
    apply (package_entry_iff sample_platform _ _ sample_world).
    eexists _, _. split; [done|]. by vm_compute.
  - by vm_compute.
Defined.

Lemma build_packages_without_debs_witness :
  build_packages sample_platform {[ lit "README" := File (blob "notes") ]}
    sample_world
  = (sample_world, Ok []).
Proof.
  apply (build_packages_without_debs sample_platform
           {[ lit "README" := File (blob "notes") ]} sample_world).
  intros name deb [<- _]%lookup_singleton_Some. by vm_compute.
Defined.

Lemma rewrite_release_again_witness :
  ∃ prefix,
    lit "Origin: repo" ++ [NL] ++ lit "MD5Sum:" ++ [NL] ++ lit " 1 2 Packages"
      ++ [NL]
    = prefix ++ (lit " 1 2 Packages" ++ [NL])
    ∧ ∀ block',
        rewrite_release
          (lit "Origin: repo" ++ [NL] ++ lit "MD5Sum:" ++ [NL]
           ++ lit " 1 2 Packages" ++ [NL]) block'
        = Ok (prefix ++ block').
Proof.
  apply (rewrite_release_again
           (lit "Origin: repo" ++ [NL] ++ lit "MD5Sum:" ++ [NL]
            ++ lit " 00 1 Packages" ++ [NL] ++ lit "SHA256:" ++ [NL])
           (lit " 1 2 Packages" ++ [NL])).
  by vm_compute.
Defined.

Lemma main_frame_witness :
  debs (main sample_platform sample_world).1 = debs sample_world
  ∧ files (main sample_platform sample_world).1 !! lit "notes.txt"
    = files sample_world !! lit "notes.txt".
Proof.
  apply (main_frame sample_platform sample_world (lit "notes.txt"));
    by vm_compute.
Defined.

Lemma main_without_release_witness :
  (main sample_platform sample_bare_world).2
  = Raise (SystemExit (lit "Release file not found")).
Proof.
  destruct (ascii_encode sample_index) as [encoded|] eqn:Henc;
    [|by vm_compute in Henc].
  eapply proj1,
    (main_without_release sample_platform sample_bare_world sample_debs
       (World (Some sample_debs) ∅ (opened sample_visited))
       sample_index encoded);
    [done|by vm_compute|exact Henc|done].
Defined.

Lemma main_succeeds_witness :
  (main sample_platform sample_world).2 = Ok tt.
Proof.
  erewrite (main_succeeds sample_platform sample_world sample_debs
              sample_visited sample_index).
  - done.
  - done.
  - by vm_compute.
  - by vm_compute.
  - by vm_compute.
  - by vm_compute.
  - intros header Hheader. vm_compute in Hheader.
    injection Hheader as <-. by vm_compute.
  - by vm_compute.
Defined.

Lemma main_success_consistent_witness :
  ∃ packages release new_text prefix,
    let compressed := bz2_compress sample_platform packages in
    files (main sample_platform sample_world).1 !! lit "Packages" = Some packages
    ∧ files (main sample_platform sample_world).1 !! lit "Packages.bz2"
      = Some compressed
    ∧ files (main sample_platform sample_world).1 !! lit "Release" = Some release
    ∧ utf8_encode sample_platform new_text = Some release
    ∧ new_text
      = prefix
        ++ md5_block (md5_hexdigest sample_platform packages)
             (Z.of_nat (length packages))
             (md5_hexdigest sample_platform compressed)
             (Z.of_nat (length compressed)).
Proof.
  apply (main_success_consistent sample_platform sample_world).
  by vm_compute.
Defined.

(** ** The index read by the script's own parser *)

Section IndexReadsBack.
Context (P : Platform).

Lemma extract_control_fields_plain deb_name deb w control :
  (extract_control_fields P deb_name deb w).2 = Ok control →
  Forall plain_field control.
Proof.
  intros Hok. pose proof (extract_control_fields_outcome P deb_name deb w) as Hr.
  rewrite Hok in Hr. inversion Hr; subst. apply parse_control_plain.
Qed.

(** X19.  The entries of the index read back with the parser of the
    script: when [build_packages] returns the index, a package file whose
    path "debs/name" and whose digest are free of line boundaries and of
    leading and trailing whitespace has in the index an entry that parses
    to its control fields without Filename, Size and MD5sum, followed by
    its path, its size in bytes and its digest. *)
Theorem build_packages_entry_reads_back deb_dir w w' content name data :
  build_packages P deb_dir w = (w', Ok content) →
  deb_dir !! name = Some (File data) →
  suffix name = lit ".deb" →
  plain (lit "debs/" ++ name) →
  plain (md5_hexdigest P data) →
  ∃ control entry before after,
    (extract_control_fields P name (File data) w).2 = Ok control
    ∧ content = before ++ entry ++ after
    ∧ parse_control entry
      = filter (λ kv, kv.1 ∉ reserved_keys) control
        ++ [(lit "Filename", lit "debs/" ++ name);
            (lit "Size", str_of_int (Z.of_nat (length data)));
            (lit "MD5sum", md5_hexdigest P data)].
Proof.
  intros Hrun Hfile Hsuffix Hname Hmd5.
  apply build_packages_spec in Hrun as (_ & entries & Hentries & ->).
  assert (Hin : (name, File data) ∈ deb_paths deb_dir)
    by (by apply elem_of_deb_paths).
  apply list_elem_of_split in Hin as (l1 & l2 & Hsplit).
  rewrite Hsplit in Hentries.
  apply Forall2_app_inv_l in Hentries as (es1 & es2' & _ & Hcons & ->).
  apply Forall2_cons_inv_l in Hcons as (entry & es2 & Hentry & _ & ->).
  destruct Hentry as (data' & control & [= <-] & Hcontrol & ->).
  cbn [fst snd] in *.
  eexists control, _, (concat es1), (concat es2). split_and!.
  - apply Hcontrol.
  - by rewrite concat_app, concat_cons.
  - pose proof (extract_control_fields_plain _ _ _ _ (Hcontrol w)) as Hplain.
    by destruct (parse_format_fields control (lit "debs/" ++ name)
                   (Z.of_nat (length data)) (md5_hexdigest P data)
                   Hplain Hname Hmd5).
Qed.

End IndexReadsBack.

Lemma build_packages_entry_reads_back_witness :
  ∃ control entry before after,
    (extract_control_fields sample_platform (lit "hello.deb")
       (File sample_control) sample_world).2 = Ok control
    ∧ sample_index = before ++ entry ++ after
    ∧ parse_control entry
      = filter (λ kv, kv.1 ∉ reserved_keys) control
        ++ [(lit "Filename", lit "debs/" ++ lit "hello.deb");
            (lit "Size", str_of_int (Z.of_nat (length sample_control)));
            (lit "MD5sum", md5_hexdigest sample_platform sample_control)].
Proof.
  apply (build_packages_entry_reads_back sample_platform sample_debs
           sample_world sample_visited sample_index (lit "hello.deb")
           sample_control); try (by vm_compute); by_evaluation.
Defined.
